(** * service_creator: a shallow embedding of [service_creator.py]

    The script reads a command from a file, sanitises a service name,
    renders a systemd unit file, stages it under [/tmp] and, when it runs
    as root, installs it with [mv] and [systemctl].

    Python strings are sequences of Unicode code points; they are modelled
    as lists of code points.  The operating system is modelled by a small
    symlink-free file tree, a current directory, an effective user id and
    opaque external tools.

    What the model leaves out: permissions, symbolic links, text encodings
    and newline translation (a file holds the text that reading it
    returns), limits on the length of names, and tools that cannot be
    started at all.  An I/O error that the script does not catch is an
    [OSError] that ends the run with exit status 1, as an uncaught Python
    exception does.

    Layout: the string and path functions of Python the script uses
    ([PyStr], [posixpath]); the machine and the monad of state and
    exceptions; the script itself, [create_service] and [main], statement
    by statement; the vocabulary of the specification; then the properties,
    ending with the ten claims and their instances on a concrete machine
    ([Demo]). *)

From Stdlib Require Import ZArith NArith Ascii String DecimalString.
From stdpp Require Import base option list gmap.

Local Open Scope N_scope.

(** ** Python [str] *)

Abbreviation codepoint := N (only parsing).
Abbreviation str := (list N) (only parsing).

(** An ASCII literal as a Python string. *)
Definition py (x : string) : str :=
  List.map N_of_ascii (list_ascii_of_string x).

Module PyStr.

Definition between (lo hi c : codepoint) : bool := (lo <=? c) && (c <=? hi).

(** [str.isspace] for one character (CPython's [_PyUnicode_IsWhitespace]). *)
Definition isspace (c : codepoint) : bool :=
  between 0x09 0x0D c || between 0x1C 0x20 c
  || (c =? 0x85) || (c =? 0xA0) || (c =? 0x1680)
  || between 0x2000 0x200A c
  || (c =? 0x2028) || (c =? 0x2029) || (c =? 0x202F)
  || (c =? 0x205F) || (c =? 0x3000).

(** [str.isalnum] for one character of the Latin-1 range:
    [isalpha or isdecimal or isdigit or isnumeric]. *)
Definition isalnum_latin1 (c : codepoint) : bool :=
  between 0x30 0x39 c || between 0x41 0x5A c || between 0x61 0x7A c
  || (c =? 0xAA) || (c =? 0xB2) || (c =? 0xB3) || (c =? 0xB5)
  || (c =? 0xB9) || (c =? 0xBA) || between 0xBC 0xBE c
  || between 0xC0 0xD6 c || between 0xD8 0xF6 c || between 0xF8 0xFF c.

Fixpoint lstrip (s : str) : str :=
  match s with
  | c :: s' => if isspace c then lstrip s' else s
  | [] => []
  end.

Definition rstrip (s : str) : str := rev (lstrip (rev s)).

(** [s.strip()] *)
Definition strip (s : str) : str := rstrip (lstrip s).

(** [sep.join(parts)] *)
Fixpoint join (sep : str) (parts : list str) : str :=
  match parts with
  | [] => []
  | [p] => p
  | p :: rest => p ++ sep ++ join sep rest
  end.

(** [s.split(sep)] for a one-character separator. *)
Fixpoint split (sep : codepoint) (s : str) : list str :=
  match s with
  | [] => [[]]
  | c :: s' =>
      if c =? sep then [] :: split sep s'
      else match split sep s' with
           | h :: t => (c :: h) :: t
           | [] => [[c]]
           end
  end.

Fixpoint startswith (p s : str) : bool :=
  match p, s with
  | [], _ => true
  | a :: p', b :: s' => (a =? b) && startswith p' s'
  | _ :: _, [] => false
  end.

Definition endswith (p s : str) : bool := startswith (rev p) (rev s).

(** [c in s] for a one-character [c]. *)
Definition contains (c : codepoint) (s : str) : bool := existsb (N.eqb c) s.

Definition eqb (a b : str) : bool := bool_decide (a = b).

(** Truthiness of a string: [bool(s)]. *)
Definition truthy (s : str) : bool :=
  match s with [] => false | _ :: _ => true end.

End PyStr.

(** ** [posixpath] *)

Module posixpath.
Import PyStr.

Definition sep : codepoint := 0x2F.

Definition isabs (p : str) : bool := startswith [sep] p.

(** [os.path.join(a, b)] *)
Definition join (a b : str) : str :=
  if startswith [sep] b then b
  else if negb (truthy a) || endswith [sep] a then a ++ b
  else a ++ [sep] ++ b.

Definition normpath_step (initial_slashes : nat) (new_comps : list str)
    (comp : str) : list str :=
  if eqb comp [] || eqb comp (py ".") then new_comps
  else if negb (eqb comp (py ".."))
          || ((initial_slashes =? 0)%nat && negb (bool_decide (new_comps <> [])))
          || (match last new_comps with
              | Some l => eqb l (py "..")
              | None => false
              end)
  then new_comps ++ [comp]
  else removelast new_comps.

(** [os.path.normpath(path)] *)
Definition normpath (path : str) : str :=
  if negb (truthy path) then py "."
  else
    let initial_slashes : nat :=
      if startswith [sep] path then
        if startswith [sep; sep] path && negb (startswith [sep; sep; sep] path)
        then 2%nat else 1%nat
      else 0%nat in
    let comps := fold_left (normpath_step initial_slashes) (split sep path) [] in
    let path := PyStr.join [sep] comps in
    let path := repeat sep initial_slashes ++ path in
    if truthy path then path else py ".".

(** [os.path.abspath(path)] with the current directory [cwd]. *)
Definition abspath (cwd path : str) : str :=
  normpath (if isabs path then path else join cwd path).

End posixpath.

(** ** The machine the script runs on *)

(** A node of the file tree.  A regular file holds the text that
    [open(path, 'r').read()] returns. *)
Inductive node :=
  | File (content : str)
  | Dir.

(** What the script takes from its platform without implementing it: the
    external tools ([mv], [systemctl]) with the part of the machine they act
    on, the Unicode database beyond Latin-1, and the text of a
    [subprocess.CalledProcessError]. *)
Class Platform := {
  host : Type;
  run_tool : list str -> gmap (list str) node -> host ->
             Z * gmap (list str) node * host;
  isalnum_wide : codepoint -> bool;
  str_CalledProcessError : list str -> Z -> str;
}.

(** What the script does to the outside, in the order it does it. *)
Inductive event :=
  | Print (line : str)
  | Write (path content : str)
  | Exec (argv : list str).

Inductive exn :=
  | OSError (path : str)
  | CalledProcessError (cmd : list str) (returncode : Z)
  | SystemExit (code : Z).

Inductive outcome (A : Type) :=
  | Ret (a : A)
  | Raise (e : exn).
Arguments Ret {A} a.
Arguments Raise {A} e.

Section Machine.
Context `{Platform}.

(** The file tree maps the components of an absolute path to a node; the
    root directory is the empty list of components and always exists. *)
Record World := {
  files : gmap (list str) node;
  cwd : str;
  euid : Z;
  machine : host;
  events : list event;
}.

Definition is_dir_at (fs : gmap (list str) node) (cur : list str) : bool :=
  match cur with
  | [] => true
  | _ => match fs !! cur with Some Dir => true | _ => false end
  end.

(** Path lookup, one component at a time: every component is looked up in
    a directory. *)
Fixpoint walk (fs : gmap (list str) node) (cur comps : list str)
    : option (list str) :=
  match comps with
  | [] => Some cur
  | c :: rest =>
      if is_dir_at fs cur then
        if PyStr.eqb c [] || PyStr.eqb c (py ".") then walk fs cur rest
        else if PyStr.eqb c (py "..") then walk fs (removelast cur) rest
        else walk fs (cur ++ [c]) rest
      else None
  end.

(** The place a path names, when all the directories on the way exist.
    The empty path and a path with a NUL name nothing. *)
Definition locate (w : World) (path : str) : option (list str) :=
  if negb (PyStr.truthy path) || PyStr.contains 0 path then None
  else
    walk (files w) []
      (PyStr.split posixpath.sep
         (if posixpath.isabs path then path
          else cwd w ++ [posixpath.sep] ++ path)).

Definition node_at (fs : gmap (list str) node) (key : list str) : option node :=
  match key with
  | [] => Some Dir
  | _ => fs !! key
  end.

(** [os.stat(path)], as far as the script looks at it. *)
Definition stat (w : World) (path : str) : option node :=
  key ← locate w path; node_at (files w) key.

(** *** The monad of the script: state and exceptions *)

Definition Py (A : Type) : Type := World -> outcome A * World.

Definition ret {A} (a : A) : Py A := fun w => (Ret a, w).

Definition bind {A B} (m : Py A) (k : A -> Py B) : Py B :=
  fun w =>
    match m w with
    | (Ret a, w') => k a w'
    | (Raise e, w') => (Raise e, w')
    end.

Definition raise {A} (e : exn) : Py A := fun w => (Raise e, w).

Definition emit (e : event) (w : World) : World :=
  {| files := files w; cwd := cwd w; euid := euid w;
     machine := machine w; events := events w ++ [e] |}.

(** [print(line)] *)
Definition print (line : str) : Py unit := fun w => (Ret tt, emit (Print line) w).

(** [os.path.exists(path)] *)
Definition os_path_exists (path : str) : Py bool :=
  fun w => (Ret (bool_decide (is_Some (stat w path))), w).

(** [os.path.isdir(path)] *)
Definition os_path_isdir (path : str) : Py bool :=
  fun w => (Ret (match stat w path with Some Dir => true | _ => false end), w).

(** [os.path.abspath(path)] *)
Definition os_path_abspath (path : str) : Py str :=
  fun w => (Ret (posixpath.abspath (cwd w) path), w).

(** [os.geteuid()] *)
Definition os_geteuid : Py Z := fun w => (Ret (euid w), w).

(** [with open(path, 'r') as f: f.read()] *)
Definition read_text (path : str) : Py str :=
  fun w =>
    match stat w path with
    | Some (File content) => (Ret content, w)
    | _ => (Raise (OSError path), w)
    end.

(** [with open(path, 'w') as f: f.write(content)]: the file is created
    or truncated; a directory cannot be opened for writing. *)
Definition write_text (path content : str) : Py unit :=
  fun w =>
    match locate w path with
    | Some key =>
        match node_at (files w) key with
        | Some Dir => (Raise (OSError path), w)
        | _ =>
            (Ret tt,
             emit (Write path content)
               {| files := <[key := File content]> (files w); cwd := cwd w;
                  euid := euid w; machine := machine w; events := events w |})
        end
    | None => (Raise (OSError path), w)
    end.

(** [subprocess.run(argv, check=True)] *)
Definition subprocess_run (argv : list str) : Py unit :=
  fun w =>
    let '(returncode, fs, h) := run_tool argv (files w) (machine w) in
    let w' := emit (Exec argv)
                {| files := fs; cwd := cwd w; euid := euid w;
                   machine := h; events := events w |} in
    if (returncode =? 0)%Z then (Ret tt, w')
    else (Raise (CalledProcessError argv returncode), w').

(** [try: body  except subprocess.CalledProcessError as e: handler] *)
Definition try_except {A} (body : Py A) (handler : list str -> Z -> Py A) : Py A :=
  fun w =>
    match body w with
    | (Raise (CalledProcessError cmd returncode), w') => handler cmd returncode w'
    | r => r
    end.

(** [sys.exit(code)] *)
Definition sys_exit {A} (code : Z) : Py A := raise (SystemExit code).

End Machine.

#[global] Instance Py_ret `{Platform} : MRet Py := @ret _.
#[global] Instance Py_bind `{Platform} : MBind Py := fun A B k m => bind m k.

(** ** The script *)

Section Script.
Context `{Platform}.
Import PyStr.

(** [c.isalnum()] *)
Definition isalnum (c : codepoint) : bool :=
  if c <? 0x100 then isalnum_latin1 c else isalnum_wide c.

(** Line 38: [''.join(c for c in service_name if c.isalnum() or c in '-_')] *)
Definition sanitize (service_name : str) : str :=
  join (py "")
    (c ← service_name;
     if isalnum c || contains c (py "-_") then [[c]] else []).

(** Lines 47-48: the command becomes an absolute path when it is the path
    of a script file. *)
Definition normalize_command (command : str) : Py str :=
  found ← os_path_exists command;
  if negb (contains 0x20 command) && found then os_path_abspath command
  else mret command.

(** Lines 61-66: the [WorkingDirectory=] line, or a warning. *)
Definition add_working_directory (working_directory : option str)
    (service_content : str) : Py str :=
  match working_directory with
  | Some working_directory =>
      if truthy working_directory then
        isdir ← os_path_isdir working_directory;
        if (isdir : bool) then
          working_directory ← os_path_abspath working_directory;
          mret (service_content
                ++ py "WorkingDirectory=" ++ working_directory ++ py "
")
        else
          print (py "Warning: Working directory '" ++ working_directory
                 ++ py "' does not exist.");;
          mret service_content
      else mret service_content
  | None => mret service_content
  end.

(** Lines 94-109: the installation, run as root. *)
Definition install (service_name service_filename temp_service_path
    service_path : str) : Py bool :=
  try_except
    (subprocess_run [py "mv"; temp_service_path; service_path];;
     subprocess_run [py "systemctl"; py "daemon-reload"];;
     subprocess_run [py "systemctl"; py "enable"; service_filename];;
     subprocess_run [py "systemctl"; py "start"; service_filename];;
     print (py "Service '" ++ service_name ++ py "' has been created and enabled.");;
     print (py "You can check its status with: sudo systemctl status "
            ++ service_filename);;
     mret true)
    (fun cmd returncode =>
       print (py "Error: Failed to install service. "
              ++ str_CalledProcessError cmd returncode);;
       mret false).

(** Lines 83-91: what an unprivileged run prints. *)
Definition advise (service_filename temp_service_path service_path : str)
    : Py bool :=
  print (py "This script needs root privileges to create a system service.");;
  print (py "Service file created at: " ++ temp_service_path);;
  print (py "Run the following commands to install the service:");;
  print (py "sudo mv " ++ temp_service_path ++ py " " ++ service_path);;
  print (py "sudo systemctl daemon-reload");;
  print (py "sudo systemctl enable " ++ service_filename);;
  print (py "sudo systemctl start " ++ service_filename);;
  mret true.

(** [create_service(command_file, service_name, working_directory=None)] *)
Definition create_service (command_file service_name : str)
    (working_directory : option str) : Py bool :=
  found ← os_path_exists command_file;
  if negb found then
    print (py "Error: Command file '" ++ command_file ++ py "' not found.");;
    mret false
  else
    text ← read_text command_file;
    let command := strip text in
    if negb (truthy command) then
      print (py "Error: Command file is empty.");;
      mret false
    else
      let service_name := sanitize service_name in
      if negb (truthy service_name) then
        print (py "Error: Service name contains no valid characters.");;
        mret false
      else
        let service_filename := service_name ++ py ".service" in
        let service_path := py "/etc/systemd/system/" ++ service_filename in
        command ← normalize_command command;
        let service_content := py "[Unit]
Description=" ++ service_name ++ py " service
After=network.target

[Service]
Type=simple
ExecStart=" ++ command ++ py "
" in
        service_content ← add_working_directory working_directory service_content;
        let service_content := service_content ++ py "Restart=on-failure
RestartSec=5
StandardOutput=journal
StandardError=journal

[Install]
WantedBy=multi-user.target
" in
        let temp_service_path := py "/tmp/" ++ service_filename in
        write_text temp_service_path service_content;;
        uid ← os_geteuid;
        if negb (uid =? 0)%Z then
          advise service_filename temp_service_path service_path
        else
          install service_name service_filename temp_service_path service_path.

(** [main()], with [sys.argv] as its argument. *)
Definition main (argv : list str) : Py unit :=
  if (length argv <? 3)%nat || (4 <? length argv)%nat then
    print (py "Usage: python service_creator.py command_file service_name [working_directory]");;
    sys_exit 1
  else
    let command_file := nth 1 argv [] in
    let service_name := nth 2 argv [] in
    let working_directory :=
      if (length argv =? 4)%nat then Some (nth 3 argv []) else None in
    success ← create_service command_file service_name working_directory;
    if negb success then sys_exit 1 else mret tt.

(** The exit status of the process: 0 when [main] returns, the argument
    of [sys.exit], and 1 when an exception reaches the top level. *)
Definition exit_status {A} (o : outcome A) : Z :=
  match o with
  | Ret _ => 0
  | Raise (SystemExit code) => code
  | Raise _ => 1
  end.

(** Running the script as a process. *)
Definition run (argv : list str) (w : World) : Z * World :=
  let '(o, w') := main argv w in (exit_status o, w').

End Script.

(** ** What a run leaves behind *)

Section Observations.
Context `{Platform}.

(** The events a run from [w] to [w'] added. *)
Definition new_events (w w' : World) : list event :=
  drop (length (events w)) (events w').

Definition writes (evs : list event) : list (str * str) :=
  omap (fun e => match e with Write p c => Some (p, c) | _ => None end) evs.

Definition execs (evs : list event) : list (list str) :=
  omap (fun e => match e with Exec argv => Some argv | _ => None end) evs.

Definition prints (evs : list event) : list str :=
  omap (fun e => match e with Print l => Some l | _ => None end) evs.

Definition is_warning (line : str) : bool :=
  PyStr.startswith (py "Warning:") line.

End Observations.

(** ** A concrete machine

    A stand-in for the platform, used to run the script on examples: [mv]
    moves a node of the tree, [systemctl] records its arguments, and a tool
    called with an argument vector listed in [broken] fails with status 1
    and does nothing. *)

Module Demo.
Import PyStr.

Definition key_of (abs : str) : list str :=
  List.filter truthy (split posixpath.sep abs).

Definition tools (broken : list (list str)) (argv : list str)
    (fs : gmap (list str) node) (h : list (list str))
    : Z * gmap (list str) node * list (list str) :=
  if bool_decide (argv ∈ broken) then (1%Z, fs, h)
  else
    match argv with
    | [tool; src; dst] =>
        if eqb tool (py "mv") then
          match fs !! key_of src with
          | Some n => (0%Z, <[key_of dst := n]> (delete (key_of src) fs), h)
          | None => (1%Z, fs, h)
          end
        else (0%Z, fs, h ++ [argv])
    | _ => (0%Z, fs, h ++ [argv])
    end.

Definition describe (cmd : list str) (returncode : Z) : str :=
  py "Command '[" ++ join (py ", ") (List.map (fun a => py "'" ++ a ++ py "'") cmd)
  ++ py "]' returned non-zero exit status "
  ++ py (NilZero.string_of_int (Z.to_int returncode)) ++ py ".".

Definition platform (broken : list (list str)) : Platform :=
  {| host := list (list str);
     run_tool := tools broken;
     isalnum_wide := between 0x3B1 0x3C9;
     str_CalledProcessError := describe |}.

Definition tree : gmap (list str) node :=
  list_to_map
    [ ([py "tmp"], Dir);
      ([py "etc"], Dir);
      ([py "etc"; py "systemd"], Dir);
      ([py "etc"; py "systemd"; py "system"], Dir);
      ([py "work"], Dir);
      ([py "work"; py "cmd.txt"], File (py "/usr/bin/myserver --port 8080
"));
      ([py "work"; py "tab.txt"], File (py "a" ++ [0x09] ++ py "b" ++ [0x0A]));
      ([py "work"; py "a" ++ [0x09] ++ py "b"], File (py "#!/bin/sh
"));
      ([py "work"; py "empty.txt"], File [0x0A; 0x20; 0x20])
    ].

Definition world (broken : list (list str)) (uid : Z) : @World (platform broken) :=
  {| files := tree; cwd := py "/work"; euid := uid;
     machine := ([] : @host (platform broken)); events := [] |}.

(** The platform on which every tool works, and two users of it. *)
Definition plain : Platform := platform [].

Definition user : @World plain := world [] 1000.

Definition other_user : @World plain :=
  {| files := tree; cwd := py "/work"; euid := 501;
     machine := ([] : @host plain); events := [Print (py "earlier output")] |}.

(** The platform on which [systemctl enable MyService.service] fails, and
    root on it. *)
Definition enable_fails : Platform :=
  platform [[py "systemctl"; py "enable"; py "MyService.service"]].

Definition root : @World enable_fails :=
  world [[py "systemctl"; py "enable"; py "MyService.service"]] 0.

(** Root on the platform on which every tool works. *)
Definition admin : @World plain := world [] 0.

(** A user whose current directory is [/tmp], with a command file that
    holds the relative name of the staging file itself. *)
Definition in_tmp : @World plain :=
  {| files := <[ [py "work"; py "self.txt"] := File (py "svc.service") ]> tree;
     cwd := py "/tmp"; euid := 1000;
     machine := ([] : @host plain); events := [] |}.

End Demo.

(** ** The specification's vocabulary *)

Section Specification.
Context `{Platform}.
Import PyStr.

(** The character set of a service name: alphanumeric, [-] and [_]. *)
Definition allowed (c : codepoint) : bool :=
  isalnum c || (c =? 0x2D) || (c =? 0x5F).

(** A text made of lines, each one ended by a newline. *)
Definition lines (l : list str) : str :=
  concat (List.map (fun x => x ++ [0x0A]) l).

(** The generated file of the specification's section 6: the fixed
    fields in their order, with the optional [WorkingDirectory=] line. *)
Definition unit_lines (service_name command : str) (abs_path : option str)
    : list str :=
  [ py "[Unit]";
    py "Description=" ++ service_name ++ py " service";
    py "After=network.target";
    py "";
    py "[Service]";
    py "Type=simple";
    py "ExecStart=" ++ command ]
  ++ match abs_path with
     | Some d => [py "WorkingDirectory=" ++ d]
     | None => []
     end
  ++ [ py "Restart=on-failure";
       py "RestartSec=5";
       py "StandardOutput=journal";
       py "StandardError=journal";
       py "";
       py "[Install]";
       py "WantedBy=multi-user.target" ].

Definition unit_file (service_name command : str) (abs_path : option str) : str :=
  lines (unit_lines service_name command abs_path).

(** The command of the [ExecStart=] line: absolute when the trimmed
    command has no space character and names something that exists. *)
Definition ExecStart_value (w : World) (command : str) : str :=
  if negb (contains 0x20 command) && bool_decide (is_Some (stat w command))
  then posixpath.abspath (cwd w) command
  else command.

(** The same with "no whitespace" in place of "no space character". *)
Definition ExecStart_value_no_whitespace (w : World) (command : str) : str :=
  if negb (existsb isspace command) && bool_decide (is_Some (stat w command))
  then posixpath.abspath (cwd w) command
  else command.

(** The directory of the [WorkingDirectory=] line: present when the
    argument names an existing directory. *)
Definition WorkingDirectory_value (w : World) (working_directory : option str)
    : option str :=
  d ← working_directory;
  match stat w d with
  | Some Dir => Some (posixpath.abspath (cwd w) d)
  | _ => None
  end.

Definition not_found_line (command_file : str) : str :=
  py "Error: Command file '" ++ command_file ++ py "' not found.".

(** The optional line of the file, as text. *)
Definition WorkingDirectory_line (abs_path : option str) : str :=
  match abs_path with
  | Some d => py "WorkingDirectory=" ++ d ++ [0x0A]
  | None => []
  end.

Definition warning_line (working_directory : str) : str :=
  py "Warning: Working directory '" ++ working_directory ++ py "' does not exist.".

Definition staging_path (service_name : str) : str :=
  py "/tmp/" ++ service_name ++ py ".service".

Definition system_path (service_name : str) : str :=
  py "/etc/systemd/system/" ++ service_name ++ py ".service".

(** The staging file can be written: [/tmp] is a directory and the
    staging path is not one. *)
Definition staging_ready (w : World) (service_name : str) : bool :=
  is_dir_at (files w) [py "tmp"]
  && match files w !! [py "tmp"; service_name ++ py ".service"] with
     | Some Dir => false
     | _ => true
     end.

(** The four steps of the installation, in their order. *)
Definition install_steps (service_name : str) : list (list str) :=
  [ [py "mv"; staging_path service_name; system_path service_name];
    [py "systemctl"; py "daemon-reload"];
    [py "systemctl"; py "enable"; service_name ++ py ".service"];
    [py "systemctl"; py "start"; service_name ++ py ".service"] ].

(** An ordered list of steps run until the first one fails: the steps
    started, the failure if any, and the state the tools left. *)
Fixpoint run_steps (steps : list (list str)) (fs : gmap (list str) node)
    (h : host)
    : list (list str) * option (list str * Z) * gmap (list str) node * host :=
  match steps with
  | [] => ([], None, fs, h)
  | argv :: rest =>
      let '(returncode, fs', h') := run_tool argv fs h in
      if (returncode =? 0)%Z then
        let '(started, failure, fs'', h'') := run_steps rest fs' h' in
        (argv :: started, failure, fs'', h'')
      else ([argv], Some (argv, returncode), fs', h')
  end.

(** The world after [evs] happened. *)
Definition log (evs : list event) (w : World) : World :=
  {| files := files w; cwd := cwd w; euid := euid w;
     machine := machine w; events := events w ++ evs |}.

(** The world after the tools left the tree [fs] and the host [h]. *)
Definition set_state (fs : gmap (list str) node) (h : host) (w : World) : World :=
  {| files := fs; cwd := cwd w; euid := euid w;
     machine := h; events := events w |}.

(** The world after the unit file was staged. *)
Definition staged (service_name content : str) (w : World) : World :=
  log [Write (staging_path service_name) content]
    (set_state
       (<[ [py "tmp"; service_name ++ py ".service"] := File content ]> (files w))
       (machine w) w).

(** The warning about the working directory, when there is one. *)
Definition warnings (w : World) (working_directory : option str) : list event :=
  match working_directory with
  | Some d =>
      if truthy d && negb (match stat w d with Some Dir => true | _ => false end)
      then [Print (warning_line d)] else []
  | None => []
  end.

(** What an unprivileged run tells the user. *)
Definition advice (service_name : str) : list str :=
  [ py "This script needs root privileges to create a system service.";
    py "Service file created at: " ++ staging_path service_name;
    py "Run the following commands to install the service:";
    py "sudo mv " ++ staging_path service_name ++ py " " ++ system_path service_name;
    py "sudo systemctl daemon-reload";
    py "sudo systemctl enable " ++ service_name ++ py ".service";
    py "sudo systemctl start " ++ service_name ++ py ".service" ].

(** What a privileged run prints after the steps. *)
Definition install_report (service_name : str) (failure : option (list str * Z))
    : list str :=
  match failure with
  | None =>
      [ py "Service '" ++ service_name ++ py "' has been created and enabled.";
        py "You can check its status with: sudo systemctl status "
        ++ service_name ++ py ".service" ]
  | Some (cmd, returncode) =>
      [ py "Error: Failed to install service. "
        ++ str_CalledProcessError cmd returncode ]
  end.

Definition usage_line : str :=
  py "Usage: python service_creator.py command_file service_name [working_directory]".

(** The optional fourth element of [sys.argv]. *)
Definition working_directory_argument (argv : list str) : option str :=
  if (length argv =? 4)%nat then Some (nth 3 argv []) else None.

(** The place of the staging file in the tree. *)
Definition staging_key (service_name : str) : list str :=
  [py "tmp"; service_name ++ py ".service"].

(** The failure of the installation of a staged file, if any. *)
Definition install_failure (w : World) (service_name content : str)
    : option (list str * Z) :=
  (run_steps (install_steps service_name)
     (<[staging_key service_name := File content]> (files w)) (machine w)).1.1.2.

(** A successful run: the command file holds a command, the name keeps a
    character, the staging file can be written and, for root, no step of
    the installation fails. *)
Definition succeeds (w : World) (command_file service_name : str)
    (working_directory : option str) : Prop :=
  exists text,
    stat w command_file = Some (File text)
    /\ strip text <> []
    /\ sanitize service_name <> []
    /\ staging_ready w (sanitize service_name) = true
    /\ (euid w <> 0%Z
        \/ install_failure w (sanitize service_name)
             (unit_file (sanitize service_name) (ExecStart_value w (strip text))
                (WorkingDirectory_value w working_directory)) = None).

(** The command the file holds: its text, trimmed. *)
Definition command_in (w : World) (command_file : str) : option str :=
  match stat w command_file with
  | Some (File text) => Some (strip text)
  | _ => None
  end.

End Specification.

(** * Properties *)

(** ** Sanity checks of the string and path models *)

Example normpath_ex1 : posixpath.normpath (py "//a/./b/../c/") = py "//a/c".
Proof. reflexivity. Qed.
Example normpath_ex2 : posixpath.normpath (py "///a") = py "/a".
Proof. reflexivity. Qed.
Example normpath_ex3 : posixpath.normpath (py "a/../..") = py "..".
Proof. reflexivity. Qed.
Example normpath_ex4 : posixpath.normpath (py "/..") = py "/".
Proof. reflexivity. Qed.
Example strip_ex :
  PyStr.strip (py "  a" ++ [0x09] ++ py "b" ++ [0x0A; 0x20; 0x85])
  = py "a" ++ [0x09] ++ py "b".
Proof. reflexivity. Qed.

(** ** Strings *)

Import PyStr.

Section StringFacts.
Context `{Platform}.

Lemma join_empty_cons (p : str) (rest : list str) :
  join [] (p :: rest) = p ++ join [] rest.
Proof. destruct rest; simpl; [by rewrite app_nil_r | done]. Qed.

Lemma allowed_inline (c : codepoint) :
  isalnum c || contains c (py "-_") = allowed c.
Proof.
  unfold allowed, contains. simpl.
  rewrite orb_false_r, orb_assoc. done.
Qed.

Lemma sanitize_filter (service_name : str) :
  sanitize service_name = List.filter allowed service_name.
Proof.
  unfold sanitize. induction service_name as [|c s IH]; [done|].
  cbn [mbind list_bind List.filter]. 
  rewrite allowed_inline. destruct (allowed c); simpl app.
  - rewrite join_empty_cons. simpl. by f_equal.
  - done.
Qed.

Lemma sanitize_allowed (service_name : str) :
  Forall (fun c => allowed c = true) (sanitize service_name).
Proof.
  rewrite sanitize_filter. apply Forall_forall. intros c Hc.
  apply list_elem_of_In, filter_In in Hc. tauto.
Qed.

Lemma allowed_not_sep (c : codepoint) : allowed c = true -> c <> posixpath.sep /\ c <> 0.
Proof. split; intros ->; vm_compute in H0; discriminate. Qed.

Lemma split_no_sep (sep : codepoint) (s : str) :
  contains sep s = false -> split sep s = [s].
Proof.
  induction s as [|c s IH]; [done|]. unfold contains. simpl.
  intros [Hc Hs]%orb_false_elim. rewrite N.eqb_sym, Hc.
  by rewrite IH.
Qed.

Lemma contains_app (c : codepoint) (a b : str) :
  contains c (a ++ b) = contains c a || contains c b.
Proof. apply existsb_app. Qed.

Lemma contains_allowed (c : codepoint) (s : str) :
  allowed c = false -> Forall (fun c => allowed c = true) s -> contains c s = false.
Proof.
  intros Hc Hs. induction Hs as [|x s Hx Hs IH]; [done|].
  unfold contains. simpl. fold (contains c s). rewrite IH, orb_false_r.
  apply N.eqb_neq. intros ->. congruence.
Qed.
End StringFacts.

(** ** The machine and the paths of [create_service] *)

Section MachineFacts.
Context `{Platform}.

Lemma service_file_not_special (name : str) :
  eqb (name ++ py ".service") [] = false
  /\ eqb (name ++ py ".service") (py ".") = false
  /\ eqb (name ++ py ".service") (py "..") = false.
Proof.
  unfold eqb. repeat split; apply bool_decide_eq_false; intros E;
    apply (f_equal length) in E; rewrite length_app in E; simpl in E; lia.
Qed.

Lemma locate_staging (w : World) (name : str) :
  Forall (fun c => allowed c = true) name ->
  locate w (staging_path name)
  = if is_dir_at (files w) [py "tmp"]
    then Some [py "tmp"; name ++ py ".service"] else None.
Proof.
  intros Hname. unfold locate, staging_path.
  assert (Hnul : contains 0 (py "/tmp/" ++ name ++ py ".service") = false).
  { rewrite !contains_app, (contains_allowed 0 name); done. }
  rewrite Hnul. 
  assert (Hsplit : split posixpath.sep (py "/tmp/" ++ name ++ py ".service")
                   = [[]; py "tmp"; name ++ py ".service"]).
  { change (py "/tmp/") with [47; 116; 109; 112; 47]. simpl.
    rewrite split_no_sep; [done|].
    rewrite contains_app, (contains_allowed posixpath.sep name); done. }
  change (PyStr.truthy (py "/tmp/" ++ name ++ py ".service")) with true.
  change (posixpath.isabs (py "/tmp/" ++ name ++ py ".service")) with true.
  cbn [negb orb]. rewrite Hsplit.
  destruct (service_file_not_special name) as (E1 & E2 & E3).
  cbn [walk]. change (is_dir_at (files w) []) with true. cbn iota.
  change (eqb [] []) with true. cbn [orb].
  change (eqb (py "tmp") []) with false.
  change (eqb (py "tmp") (py ".")) with false.
  change (eqb (py "tmp") (py "..")) with false. cbn [orb app].
  destruct (is_dir_at (files w) [py "tmp"]); [|done].
  rewrite E1, E2, E3. done.
Qed.

Lemma write_staging (w : World) (name content : str) :
  Forall (fun c => allowed c = true) name ->
  write_text (staging_path name) content w
  = if staging_ready w name then (Ret tt, staged name content w)
    else (Raise (OSError (staging_path name)), w).
Proof.
  intros Hname. unfold write_text, staging_ready.
  rewrite locate_staging by done.
  destruct (is_dir_at (files w) [py "tmp"]); [|done].
  cbn [node_at andb].
  destruct (files w !! [py "tmp"; name ++ py ".service"]) as [[|]|]; done.
Qed.

Lemma advise_run (name : str) (w : World) :
  advise (name ++ py ".service") (staging_path name) (system_path name) w
  = (Ret true, log (Print <$> advice name) w).
Proof.
  unfold advise, advice, log, mbind, Py_bind, bind, print, emit, mret, Py_ret, ret.
  cbn [files cwd euid machine events fmap list_fmap].
  rewrite <- !app_assoc. reflexivity.
Qed.

Lemma install_run (name : str) (w : World) :
  install name (name ++ py ".service") (staging_path name) (system_path name) w
  = let '(started, failure, fs, h) :=
      run_steps (install_steps name) (files w) (machine w) in
    (Ret (bool_decide (failure = None)),
     log (Print <$> install_report name failure)
       (log (Exec <$> started) (set_state fs h w))).
Proof.
  unfold install, install_steps, run_steps, try_except, subprocess_run,
    mbind, Py_bind, bind, print, emit, mret, Py_ret, ret, log, set_state.
  cbn [files cwd euid machine events].
  repeat (match goal with
          | |- context [run_tool ?a ?f ?h] =>
              let rc := fresh "rc" in
              destruct (run_tool a f h) as [[rc ?] ?]; destruct (rc =? 0)%Z
          end; cbn [files cwd euid machine events fmap list_fmap install_report];
          rewrite <- ?app_assoc; try reflexivity).
Qed.

Lemma bind_run {A B} (m : Py A) (k : A -> Py B) (w : World) :
  (m ≫= k) w
  = match m w with
    | (Ret a, w') => k a w'
    | (Raise e, w') => (Raise e, w')
    end.
Proof. reflexivity. Qed.

Lemma log_nil (w : World) : log [] w = w.
Proof. destruct w. unfold log. simpl. by rewrite app_nil_r. Qed.

Lemma log_log (a b : list event) (w : World) : log b (log a w) = log (a ++ b) w.
Proof. unfold log. simpl. by rewrite app_assoc. Qed.

Lemma normalize_command_run (command : str) (w : World) :
  normalize_command command w = (Ret (ExecStart_value w command), w).
Proof.
  unfold normalize_command, ExecStart_value. rewrite bind_run.
  unfold os_path_exists.
  destruct (negb (contains 32 command) && bool_decide (is_Some (stat w command)));
    reflexivity.
Qed.

Lemma add_working_directory_run (wd : option str) (content : str) (w : World) :
  add_working_directory wd content w
  = (Ret (content ++ WorkingDirectory_line (WorkingDirectory_value w wd)),
     log (warnings w wd) w).
Proof.
  unfold add_working_directory, WorkingDirectory_value, warnings.
  destruct wd as [d|]; cbn [mbind option_bind].
  - destruct d as [|c d].
    + cbn [truthy andb]. unfold stat, locate. cbn [truthy negb orb mbind option_bind].
      cbn [WorkingDirectory_line]. rewrite log_nil. rewrite List.app_nil_r. reflexivity.
    + cbn [truthy andb]. rewrite bind_run. unfold os_path_isdir.
      destruct (stat w (c :: d)) as [[|]|]; cbn [negb WorkingDirectory_line];
        rewrite ?bind_run; unfold os_path_abspath, print;
        rewrite ?log_nil, ?List.app_nil_r; reflexivity.
  - cbn [WorkingDirectory_line]. rewrite log_nil, app_nil_r. reflexivity.
Qed.

Lemma render_unit_file (name command : str) (abs_path : option str) :
  ((py "[Unit]
Description=" ++ name ++ py " service
After=network.target

[Service]
Type=simple
ExecStart=" ++ command ++ py "
") ++ WorkingDirectory_line abs_path) ++ py "Restart=on-failure
RestartSec=5
StandardOutput=journal
StandardError=journal

[Install]
WantedBy=multi-user.target
" = unit_file name command abs_path.
Proof.
  unfold unit_file, unit_lines, lines, WorkingDirectory_line.
  destruct abs_path; cbn [List.map concat app];
    repeat (rewrite <- ?app_assoc; cbn [app py List.map list_ascii_of_string]);
    reflexivity.
Qed.

Lemma create_service_not_found (cf name : str) (wd : option str) (w : World) :
  stat w cf = None ->
  create_service cf name wd w
  = (Ret false, log [Print (not_found_line cf)] w).
Proof.
  intros Hstat. unfold create_service. rewrite bind_run. unfold os_path_exists.
  rewrite Hstat. rewrite bool_decide_false by (intros [? ?]; discriminate).
  reflexivity.
Qed.

Lemma create_service_not_a_file (cf name : str) (wd : option str) (w : World) :
  stat w cf = Some Dir ->
  create_service cf name wd w = (Raise (OSError cf), w).
Proof.
  intros Hstat. unfold create_service. rewrite bind_run. unfold os_path_exists.
  rewrite Hstat. rewrite bool_decide_true by eauto. cbn [negb].
  rewrite bind_run. unfold read_text. rewrite Hstat. reflexivity.
Qed.

Lemma create_service_empty_command (cf name : str) (wd : option str) (w : World)
    (text : str) :
  stat w cf = Some (File text) -> strip text = [] ->
  create_service cf name wd w
  = (Ret false, log [Print (py "Error: Command file is empty.")] w).
Proof.
  intros Hstat Hcmd. unfold create_service. rewrite bind_run. unfold os_path_exists.
  rewrite Hstat. rewrite bool_decide_true by eauto. cbn [negb].
  rewrite bind_run. unfold read_text. rewrite Hstat, Hcmd. reflexivity.
Qed.

Lemma create_service_no_valid_characters (cf name : str) (wd : option str)
    (w : World) (text : str) :
  stat w cf = Some (File text) -> strip text <> [] -> sanitize name = [] ->
  create_service cf name wd w
  = (Ret false,
     log [Print (py "Error: Service name contains no valid characters.")] w).
Proof.
  intros Hstat Hcmd Hname. unfold create_service. rewrite bind_run.
  unfold os_path_exists.
  rewrite Hstat. rewrite bool_decide_true by eauto. cbn [negb].
  rewrite bind_run. unfold read_text. rewrite Hstat.
  destruct (strip text) as [|c0 cmd0]; [done|]. rewrite Hname. reflexivity.
Qed.

Lemma create_service_valid (cf name : str) (wd : option str) (w : World)
    (text : str) :
  stat w cf = Some (File text) -> strip text <> [] -> sanitize name <> [] ->
  create_service cf name wd w
  = let service_name := sanitize name in
    let content :=
      unit_file service_name (ExecStart_value w (strip text))
        (WorkingDirectory_value w wd) in
    let w1 := log (warnings w wd) w in
    if staging_ready w service_name then
      if negb (euid w =? 0)%Z
      then (Ret true, log (Print <$> advice service_name) (staged service_name content w1))
      else install service_name (service_name ++ py ".service")
             (staging_path service_name) (system_path service_name)
             (staged service_name content w1)
    else (Raise (OSError (staging_path service_name)), w1).
Proof.
  intros Hstat Hcmd Hname. unfold create_service. rewrite bind_run.
  unfold os_path_exists.
  rewrite Hstat. rewrite bool_decide_true by eauto. cbn [negb].
  rewrite bind_run. unfold read_text. rewrite Hstat.
  destruct (strip text) as [|c0 cmd0] eqn:Ecmd; [done|].
  destruct (sanitize name) as [|n0 name0] eqn:Ename; [done|].
  cbn [truthy negb]. rewrite <- Ename.
  rewrite bind_run, normalize_command_run.
  rewrite bind_run, add_working_directory_run.
  rewrite render_unit_file.
  change (py "/tmp/" ++ sanitize name ++ py ".service") with (staging_path (sanitize name)).
  change (py "/etc/systemd/system/" ++ sanitize name ++ py ".service")
    with (system_path (sanitize name)).
  rewrite bind_run, write_staging by apply sanitize_allowed.
  cbv zeta.
  replace (staging_ready (log (warnings w wd) w) (sanitize name))
    with (staging_ready w (sanitize name)) by reflexivity.
  destruct (staging_ready w (sanitize name)); [|reflexivity].
  rewrite bind_run. unfold os_geteuid.
  replace (euid (staged _ _ _)) with (euid w) by reflexivity.
  destruct (negb (euid w =? 0)%Z); [|reflexivity].
  apply advise_run.
Qed.
End MachineFacts.

(** ** Whole runs *)

Section RunFacts.
Context `{Platform}.

Lemma new_events_log (evs : list event) (fs : gmap (list str) node) (h : host)
    (w : World) :
  new_events w (log evs (set_state fs h w)) = evs.
Proof. unfold new_events, log, set_state. simpl. apply drop_app_length. Qed.

Lemma new_events_log' (evs : list event) (w : World) :
  new_events w (log evs w) = evs.
Proof. unfold new_events, log. simpl. apply drop_app_length. Qed.

Lemma new_events_refl (w : World) : new_events w w = [].
Proof. unfold new_events. apply drop_all. Qed.

Lemma writes_app (a b : list event) : writes (a ++ b) = writes a ++ writes b.
Proof. apply omap_app. Qed.

Lemma execs_app (a b : list event) : execs (a ++ b) = execs a ++ execs b.
Proof. apply omap_app. Qed.

Lemma prints_app (a b : list event) : prints (a ++ b) = prints a ++ prints b.
Proof. apply omap_app. Qed.

Lemma writes_Print (l : list str) : writes (Print <$> l) = [].
Proof. induction l; done. Qed.

Lemma writes_Exec (l : list (list str)) : writes (Exec <$> l) = [].
Proof. induction l; done. Qed.

Lemma execs_Print (l : list str) : execs (Print <$> l) = [].
Proof. induction l; done. Qed.

Lemma execs_Exec (l : list (list str)) : execs (Exec <$> l) = l.
Proof. induction l; simpl; [done | by f_equal]. Qed.

Lemma prints_Print (l : list str) : prints (Print <$> l) = l.
Proof. induction l; simpl; [done | by f_equal]. Qed.

Lemma prints_Exec (l : list (list str)) : prints (Exec <$> l) = [].
Proof. induction l; done. Qed.

Lemma writes_warnings (w : World) (wd : option str) : writes (warnings w wd) = [].
Proof. unfold warnings. destruct wd as [d|]; [|done]. by destruct (_ && _). Qed.

Lemma execs_warnings (w : World) (wd : option str) : execs (warnings w wd) = [].
Proof. unfold warnings. destruct wd as [d|]; [|done]. by destruct (_ && _). Qed.

(** The steps started are the first steps of the list; all of them when
    none failed, and up to the failing one otherwise. *)
Lemma run_steps_started (steps : list (list str)) (fs : gmap (list str) node)
    (h : host) started failure fs' h' :
  run_steps steps fs h = (started, failure, fs', h') ->
  started `prefix_of` steps
  /\ match failure with
     | None => started = steps
     | Some (cmd, returncode) => returncode <> 0%Z /\ last started = Some cmd
     end.
Proof.
  revert fs h started failure fs' h'.
  induction steps as [|argv rest IH]; intros fs h started failure fs' h' Hrun.
  - simpl in Hrun. injection Hrun as <- <- <- <-. split; [done | done].
  - simpl in Hrun. destruct (run_tool argv fs h) as [[rc fs1] h1].
    destruct (rc =? 0)%Z eqn:Erc.
    + destruct (run_steps rest fs1 h1) as [[[st fl] fs2] h2] eqn:Erest.
      injection Hrun as <- <- <- <-.
      destruct (IH _ _ _ _ _ _ Erest) as [Hpre Hfl]. split.
      * by apply prefix_cons.
      * destruct fl as [[cmd rc']|].
        -- destruct Hfl as [Hrc Hlast]. split; [done|].
           destruct st; [done|]. by rewrite last_cons, Hlast.
        -- by f_equal.
    + injection Hrun as <- <- <- <-. split.
      * apply prefix_cons, prefix_nil.
      * split; [|done]. by apply Z.eqb_neq.
Qed.

Lemma create_service_ready (cf name : str) (wd : option str) (w : World)
    (text : str) :
  stat w cf = Some (File text) -> strip text <> [] -> sanitize name <> [] ->
  staging_ready w (sanitize name) = true ->
  create_service cf name wd w
  = let service_name := sanitize name in
    let content :=
      unit_file service_name (ExecStart_value w (strip text))
        (WorkingDirectory_value w wd) in
    let fs0 :=
      <[ [py "tmp"; service_name ++ py ".service"] := File content ]> (files w) in
    if negb (euid w =? 0)%Z then
      (Ret true,
       log (warnings w wd ++ [Write (staging_path service_name) content]
            ++ (Print <$> advice service_name))
         (set_state fs0 (machine w) w))
    else
      let '(started, failure, fs, h) :=
        run_steps (install_steps service_name) fs0 (machine w) in
      (Ret (bool_decide (failure = None)),
       log (warnings w wd ++ [Write (staging_path service_name) content]
            ++ (Exec <$> started) ++ (Print <$> install_report service_name failure))
         (set_state fs h w)).
Proof.
  intros Hstat Hcmd Hname Hready.
  rewrite (create_service_valid _ _ _ _ text) by done. cbv zeta.
  rewrite Hready. destruct (negb (euid w =? 0)%Z).
  - f_equal. unfold staged, log, set_state. simpl. f_equal.
    by rewrite <- !app_assoc.
  - rewrite install_run. unfold staged at 1 2. cbn [files machine log set_state].
    destruct (run_steps _ _ _) as [[[started failure] fs] h].
    f_equal. unfold staged, log, set_state. simpl. f_equal.
    by rewrite <- !app_assoc.
Qed.
End RunFacts.

Section MainFacts.
Context `{Platform}.

Lemma run_usage (argv : list str) (w : World) :
  ~ (length argv = 3 \/ length argv = 4)%nat ->
  run argv w = (1%Z, log [Print usage_line] w).
Proof.
  intros Hlen. unfold run, main.
  destruct ((length argv <? 3)%nat || (4 <? length argv)%nat) eqn:E.
  - reflexivity.
  - exfalso. apply orb_false_elim in E as [E1 E2].
    apply Nat.ltb_ge in E1, E2. lia.
Qed.

Lemma run_arguments (argv : list str) (w : World) :
  (length argv = 3 \/ length argv = 4)%nat ->
  run argv w
  = let '(o, w') :=
      create_service (nth 1 argv []) (nth 2 argv [])
        (working_directory_argument argv) w in
    (match o with
     | Ret true => 0%Z
     | Ret false => 1%Z
     | Raise e => exit_status (Raise e : outcome unit)
     end, w').
Proof.
  intros Hlen. unfold run, main, working_directory_argument.
  replace ((length argv <? 3)%nat || (4 <? length argv)%nat) with false.
  2:{ symmetry. apply orb_false_intro; apply Nat.ltb_ge; lia. }
  rewrite bind_run.
  destruct (create_service _ _ _ w) as [[[|]|e] w']; reflexivity.
Qed.
End MainFacts.

(** ** The claims of the specification *)

Section Claims.
Context `{Platform}.

Lemma run_steps_head (argv : list str) (rest : list (list str))
    (fs : gmap (list str) node) (h : host) :
  head (run_steps (argv :: rest) fs h).1.1.1 = Some argv.
Proof.
  simpl. destruct (run_tool argv fs h) as [[rc fs1] h1].
  destruct (rc =? 0)%Z; [|done].
  by destruct (run_steps rest fs1 h1) as [[[? ?] ?] ?].
Qed.

Lemma WorkingDirectory_value_Some (w : World) (working_directory : option str) :
  is_Some (WorkingDirectory_value w working_directory)
  <-> exists d, working_directory = Some d /\ stat w d = Some Dir.
Proof.
  unfold WorkingDirectory_value. destruct working_directory as [d|]; simpl.
  - destruct (stat w d) as [[|]|] eqn:E; split.
    all: try (intros [? ?]; discriminate).
    all: try (intros (d' & [= <-] & E'); congruence).
    + intros _. eauto.
    + intros _. eauto.
  - split; [intros [? ?]; discriminate | intros (d & ? & _); discriminate].
Qed.

(** What a run with valid inputs does, seen from outside: the warning if
    any, the staged file, then the advice or the installation. *)
Lemma create_service_observed (w : World) (command_file service_name : str)
    (working_directory : option str) (text : str) :
  stat w command_file = Some (File text) ->
  strip text <> [] ->
  sanitize service_name <> [] ->
  staging_ready w (sanitize service_name) = true ->
  let name := sanitize service_name in
  let content :=
    unit_file name (ExecStart_value w (strip text))
      (WorkingDirectory_value w working_directory) in
  exists (r : bool) (w' : World) (rest : list event),
    create_service command_file service_name working_directory w = (Ret r, w')
    /\ new_events w w'
       = warnings w working_directory ++ [Write (staging_path name) content] ++ rest
    /\ writes rest = []
    /\ (euid w <> 0%Z ->
        r = true /\ rest = (Print <$> advice name)
        /\ files w' = <[staging_key name := File content]> (files w))
    /\ (euid w = 0%Z ->
        head (execs rest) = Some [py "mv"; staging_path name; system_path name]).
Proof.
  intros Hstat Hcmd Hname Hready name content.
  rewrite (create_service_ready _ _ _ _ text) by done. cbv zeta.
  fold name. fold content.
  destruct (euid w =? 0)%Z eqn:Euid; cbn [negb].
  - apply Z.eqb_eq in Euid.
    pose proof (run_steps_head
      [py "mv"; staging_path name; system_path name]
      [ [py "systemctl"; py "daemon-reload"];
        [py "systemctl"; py "enable"; name ++ py ".service"];
        [py "systemctl"; py "start"; name ++ py ".service"] ]
      (<[ [py "tmp"; name ++ py ".service"] := File content ]> (files w))
      (machine w)) as Hhead.
    change (_ :: _ :: _ :: _ :: nil) with (install_steps name) in Hhead.
    destruct (run_steps _ _ _) as [[[started failure] fs] h].
    eexists _, _, _. split; [reflexivity|].
    rewrite new_events_log. split; [reflexivity|]. split; [|split].
    + by rewrite writes_app, writes_Print, writes_Exec.
    + intros Hne. done.
    + intros _. by rewrite execs_app, execs_Print, execs_Exec, app_nil_r.
  - apply Z.eqb_neq in Euid.
    eexists _, _, _. split; [reflexivity|].
    rewrite new_events_log. split; [reflexivity|]. split; [|split].
    + by rewrite writes_Print.
    + intros _. done.
    + intros He. done.
Qed.

(** Claim C1.  For valid input (the command file holds a command, the
    service name keeps at least one character) [create_service] writes
    exactly one file, the staging file, unless the staging path cannot be
    written, in which case an [OSError] escapes and nothing is written.
    The text of the staging file is the template of the specification's
    section 6, line by line and in this order: [[Unit]],
    [Description=<sanitized name> service], [After=network.target], an
    empty line, [[Service]], [Type=simple], [ExecStart=<normalized
    command>], the [WorkingDirectory=<absolute path>] line exactly when
    the argument names an existing directory, [Restart=on-failure],
    [RestartSec=5], [StandardOutput=journal], [StandardError=journal], an
    empty line, [[Install]], [WantedBy=multi-user.target]. *)
Theorem C1_unit_file_template (w : World) (command_file service_name : str)
    (working_directory : option str) (text : str) :
  stat w command_file = Some (File text) ->
  strip text <> [] ->
  sanitize service_name <> [] ->
  exists (o : outcome bool) (w' : World),
    create_service command_file service_name working_directory w = (o, w')
    /\ (if staging_ready w (sanitize service_name) then
          (exists r, o = Ret r)
          /\ writes (new_events w w')
             = [ (py "/tmp/" ++ sanitize service_name ++ py ".service",
                  lines
                    ([ py "[Unit]";
                       py "Description=" ++ sanitize service_name ++ py " service";
                       py "After=network.target";
                       py "";
                       py "[Service]";
                       py "Type=simple";
                       py "ExecStart=" ++ ExecStart_value w (strip text) ]
                     ++ match WorkingDirectory_value w working_directory with
                        | Some abs_path => [py "WorkingDirectory=" ++ abs_path]
                        | None => []
                        end
                     ++ [ py "Restart=on-failure";
                          py "RestartSec=5";
                          py "StandardOutput=journal";
                          py "StandardError=journal";
                          py "";
                          py "[Install]";
                          py "WantedBy=multi-user.target" ])) ]
        else
          o = Raise (OSError (py "/tmp/" ++ sanitize service_name ++ py ".service"))
          /\ writes (new_events w w') = [])
    /\ (is_Some (WorkingDirectory_value w working_directory)
        <-> exists d, working_directory = Some d /\ stat w d = Some Dir).
Proof.
  intros Hstat Hcmd Hname.
  destruct (staging_ready w (sanitize service_name)) eqn:Hready.
  - destruct (create_service_observed w command_file service_name
                working_directory text Hstat Hcmd Hname Hready)
      as (r & w' & rest & Hrun & Hev & Hrest & _).
    exists (Ret r), w'. split; [exact Hrun|].
    split; [|apply WorkingDirectory_value_Some].
    split; [by exists r|].
    rewrite Hev, !writes_app, writes_warnings, Hrest. reflexivity.
  - rewrite (create_service_valid _ _ _ _ text) by done. cbv zeta.
    rewrite Hready. eexists _, _. split; [reflexivity|].
    split; [|apply WorkingDirectory_value_Some].
    split; [reflexivity|].
    by rewrite new_events_log', writes_warnings.
Qed.

(** Claim C2.  On the privileged path (effective user id 0) the
    commands executed are a prefix of the four steps in the fixed order
    move, reload, enable, start, as run by [run_steps]: every step
    before the first failing one, and that one.  When a step fails no
    later step runs, the last line printed is the failure message with
    the text of the tool's [CalledProcessError], and the function
    returns [False]; the tree and the host are left exactly as the
    steps that ran left them, nothing is undone.  When no step fails all
    four ran and the function returns [True]. *)
Theorem C2_install_stops_at_first_failure (w : World)
    (command_file service_name : str) (working_directory : option str)
    (text : str) :
  stat w command_file = Some (File text) ->
  strip text <> [] ->
  sanitize service_name <> [] ->
  staging_ready w (sanitize service_name) = true ->
  euid w = 0%Z ->
  let name := sanitize service_name in
  let steps :=
    [ [py "mv"; py "/tmp/" ++ name ++ py ".service";
       py "/etc/systemd/system/" ++ name ++ py ".service"];
      [py "systemctl"; py "daemon-reload"];
      [py "systemctl"; py "enable"; name ++ py ".service"];
      [py "systemctl"; py "start"; name ++ py ".service"] ] in
  let content :=
    unit_file name (ExecStart_value w (strip text))
      (WorkingDirectory_value w working_directory) in
  exists started failure fs h (r : bool) (w' : World),
    run_steps steps (<[staging_key name := File content]> (files w)) (machine w)
    = (started, failure, fs, h)
    /\ create_service command_file service_name working_directory w = (Ret r, w')
    /\ execs (new_events w w') = started
    /\ started `prefix_of` steps
    /\ files w' = fs /\ machine w' = h
    /\ match failure with
       | None => started = steps /\ r = true
       | Some (cmd, returncode) =>
           r = false
           /\ returncode <> 0%Z
           /\ last started = Some cmd
           /\ last (events w')
              = Some (Print (py "Error: Failed to install service. "
                             ++ str_CalledProcessError cmd returncode))
       end.
Proof.
  intros Hstat Hcmd Hname Hready Heuid name steps content.
  rewrite (create_service_ready _ _ _ _ text) by done. cbv zeta.
  rewrite Heuid. cbn [Z.eqb negb].
  change (install_steps (sanitize service_name)) with steps.
  fold name. fold content.
  change [py "tmp"; name ++ py ".service"] with (staging_key name).
  destruct (run_steps steps _ _) as [[[started failure] fs] h] eqn:Erun.
  destruct (run_steps_started _ _ _ _ _ _ _ Erun) as [Hpre Hfail].
  eexists started, failure, fs, h, _, _.
  split; [reflexivity|]. split; [reflexivity|].
  split.
  { rewrite new_events_log, !execs_app, execs_warnings, execs_Print, execs_Exec.
    simpl. by rewrite app_nil_r. }
  split; [exact Hpre|]. split; [reflexivity|]. split; [reflexivity|].
  destruct failure as [[cmd rc]|].
  - destruct Hfail as [Hrc Hlast]. repeat split; try done.
    unfold log, set_state. cbn [events install_report fmap list_fmap].
    rewrite !app_assoc. apply last_snoc.
  - split; [exact Hfail | reflexivity].
Qed.

Lemma run_arguments_of (w : World) (prog command_file service_name : str)
    (working_directory : option str) :
  run (prog :: command_file :: service_name
       :: match working_directory with Some d => [d] | None => [] end) w
  = let '(o, w') :=
      create_service command_file service_name working_directory w in
    (match o with
     | Ret true => 0%Z
     | Ret false => 1%Z
     | Raise e => exit_status (Raise e : outcome unit)
     end, w').
Proof.
  destruct working_directory;
    (rewrite run_arguments; [reflexivity | simpl; lia]).
Qed.

(** A run that stops at the validation: what it leaves. *)
Lemma run_rejected (w : World) (command_file service_name : str)
    (working_directory : option str) (prog : str) :
  (stat w command_file = None
   \/ stat w command_file = Some Dir
   \/ (exists text, stat w command_file = Some (File text)
                    /\ (strip text = [] \/ sanitize service_name = []))) ->
  let argv :=
    prog :: command_file :: service_name
    :: match working_directory with Some d => [d] | None => [] end in
  (run argv w).1 = 1%Z
  /\ files (run argv w).2 = files w
  /\ machine (run argv w).2 = machine w
  /\ writes (new_events w (run argv w).2) = []
  /\ execs (new_events w (run argv w).2) = [].
Proof.
  intros Hcase argv.
  unfold argv. rewrite run_arguments_of.
  destruct Hcase as [Hs | [Hs | (text & Hs & Hbad)]].
  - rewrite create_service_not_found by done. cbn [fst snd].
    rewrite new_events_log'. done.
  - rewrite create_service_not_a_file by done. cbn [fst snd exit_status].
    rewrite new_events_refl. done.
  - destruct (strip text) as [|c0 cmd0] eqn:Ecmd.
    + rewrite (create_service_empty_command _ _ _ _ text) by done. cbn [fst snd].
      rewrite new_events_log'. done.
    + destruct Hbad as [? | Hname]; [done|].
      rewrite (create_service_no_valid_characters _ _ _ _ text) by (done || congruence).
      cbn [fst snd]. rewrite new_events_log'. done.
Qed.

(** Claim C3.  Sanitization keeps exactly the characters that are
    alphanumeric, [-] or [_], in their order.  When the result is not
    empty (and the command is valid and the staging path writable) the
    file written is [/tmp/<sanitized>.service] and the installation
    target, in the advice printed or in the [mv] executed, is
    [/etc/systemd/system/<sanitized>.service].  When the result is empty
    the process exits with status 1, writes no file, runs no tool and
    leaves the tree as it was. *)
Theorem C3_sanitized_name_is_filename_stem (w : World)
    (command_file service_name : str) (working_directory : option str) :
  sanitize service_name = List.filter allowed service_name
  /\ (forall text,
        stat w command_file = Some (File text) ->
        strip text <> [] ->
        sanitize service_name <> [] ->
        staging_ready w (sanitize service_name) = true ->
        let staging := py "/tmp/" ++ sanitize service_name ++ py ".service" in
        let final :=
          py "/etc/systemd/system/" ++ sanitize service_name ++ py ".service" in
        exists (r : bool) (w' : World) (content : str),
          create_service command_file service_name working_directory w = (Ret r, w')
          /\ writes (new_events w w') = [(staging, content)]
          /\ (euid w <> 0%Z ->
              In (py "sudo mv " ++ staging ++ py " " ++ final)
                (prints (new_events w w')))
          /\ (euid w = 0%Z ->
              head (execs (new_events w w')) = Some [py "mv"; staging; final]))
  /\ (sanitize service_name = [] ->
      forall prog,
        let argv :=
          prog :: command_file :: service_name
          :: match working_directory with Some d => [d] | None => [] end in
        (run argv w).1 = 1%Z
        /\ files (run argv w).2 = files w
        /\ writes (new_events w (run argv w).2) = []
        /\ execs (new_events w (run argv w).2) = []
        /\ (forall text, stat w command_file = Some (File text) ->
            strip text <> [] ->
            prints (new_events w (run argv w).2)
            = [py "Error: Service name contains no valid characters."])).
Proof.
  split; [apply sanitize_filter|]. split.
  - intros text Hstat Hcmd Hname Hready staging final.
    destruct (create_service_observed w command_file service_name
                working_directory text Hstat Hcmd Hname Hready)
      as (r & w' & rest & Hrun & Hev & Hrest & Hadv & Hinst).
    eexists r, w', _. split; [exact Hrun|]. split; [|split].
    + rewrite Hev, !writes_app, writes_warnings, Hrest. reflexivity.
    + intros Hne. destruct (Hadv Hne) as (_ & -> & _).
      rewrite Hev, !prints_app, prints_Print.
      apply in_or_app. right. apply in_or_app. right.
      unfold advice. simpl. right. right. right. left. reflexivity.
    + intros He. rewrite Hev, !execs_app, execs_warnings. simpl.
      exact (Hinst He).
  - intros Hname prog argv.
    destruct (run_rejected w command_file service_name working_directory prog)
      as (H1 & H2 & _ & H3 & H4).
    { destruct (stat w command_file) as [[text|]|]; [|by eauto|by eauto].
      right. right. exists text. eauto. }
    repeat split; try done.
    intros text Hstat Hcmd. unfold argv. rewrite run_arguments_of.
    rewrite (create_service_no_valid_characters _ _ _ _ text) by done.
    cbn [snd]. rewrite new_events_log'. reflexivity.
Qed.

(** Claim C4, amended.  The trimmed command is replaced by its
    absolute path exactly when it contains no space character (U+0020)
    and something exists at that path; otherwise, in particular whenever
    it contains a space or nothing exists there, it is left untouched.
    The result is the text of the [ExecStart=] line, the seventh line of
    the staged file. *)
Theorem C4_command_made_absolute (w : World) (command_file service_name : str)
    (working_directory : option str) (text : str) :
  stat w command_file = Some (File text) ->
  strip text <> [] ->
  sanitize service_name <> [] ->
  staging_ready w (sanitize service_name) = true ->
  let command := strip text in
  let rendered :=
    if negb (contains 0x20 command) && bool_decide (is_Some (stat w command))
    then posixpath.abspath (cwd w) command
    else command in
  normalize_command command w = (Ret rendered, w)
  /\ (contains 0x20 command = true -> rendered = command)
  /\ (stat w command = None -> rendered = command)
  /\ exists (r : bool) (w' : World) (before after : list str),
       create_service command_file service_name working_directory w = (Ret r, w')
       /\ length before = 6%nat
       /\ writes (new_events w w')
          = [ (staging_path (sanitize service_name),
               lines (before ++ [py "ExecStart=" ++ rendered] ++ after)) ].
Proof.
  intros Hstat Hcmd Hname Hready command rendered.
  split; [apply normalize_command_run|]. split; [|split].
  - intros Hsp. unfold rendered. by rewrite Hsp.
  - intros Hno. unfold rendered. rewrite Hno.
    rewrite bool_decide_false by (intros [? ?]; discriminate).
    by rewrite andb_false_r.
  - destruct (create_service_observed w command_file service_name
                working_directory text Hstat Hcmd Hname Hready)
      as (r & w' & rest & Hrun & Hev & Hrest & _).
    exists r, w',
      [ py "[Unit]";
        py "Description=" ++ sanitize service_name ++ py " service";
        py "After=network.target"; py ""; py "[Service]"; py "Type=simple" ],
      (match WorkingDirectory_value w working_directory with
       | Some abs_path => [py "WorkingDirectory=" ++ abs_path]
       | None => []
       end
       ++ [ py "Restart=on-failure"; py "RestartSec=5";
            py "StandardOutput=journal"; py "StandardError=journal";
            py ""; py "[Install]"; py "WantedBy=multi-user.target" ]).
    split; [exact Hrun|]. split; [reflexivity|].
    rewrite Hev, !writes_app, writes_warnings, Hrest. reflexivity.
Qed.

(** Claim C5.  When the command file does not exist, or exists and is
    empty after trimming, the process exits with status 1, reports the
    cause, writes no file, executes no tool, and leaves the tree and the
    host unchanged: no unit file at the staging path or at the system
    location. *)
Theorem C5_no_command_no_unit_file (w : World)
    (prog command_file service_name : str) (working_directory : option str) :
  (stat w command_file = None
   \/ exists text, stat w command_file = Some (File text) /\ strip text = []) ->
  let argv :=
    prog :: command_file :: service_name
    :: match working_directory with Some d => [d] | None => [] end in
  (run argv w).1 = 1%Z
  /\ files (run argv w).2 = files w
  /\ machine (run argv w).2 = machine w
  /\ writes (new_events w (run argv w).2) = []
  /\ execs (new_events w (run argv w).2) = []
  /\ prints (new_events w (run argv w).2)
     = [ match stat w command_file with
         | None => py "Error: Command file '" ++ command_file ++ py "' not found."
         | Some _ => py "Error: Command file is empty."
         end ].
Proof.
  intros Hcase argv.
  destruct (run_rejected w command_file service_name working_directory prog)
    as (H1 & H2 & H3 & H4 & H5).
  { destruct Hcase as [? | (text & ? & ?)]; [by left|].
    right. right. exists text. eauto. }
  repeat split; try done.
  unfold argv. rewrite run_arguments_of.
  destruct Hcase as [Hs | (text & Hs & Hempty)].
  - rewrite create_service_not_found by done. rewrite Hs. cbn [snd].
    by rewrite new_events_log'.
  - rewrite (create_service_empty_command _ _ _ _ text) by done. rewrite Hs.
    cbn [snd]. by rewrite new_events_log'.
Qed.

(** Claim C6, amended.  When the working-directory argument is a
    non-empty string that names no existing directory, the run first
    prints the warning, then stages the unit file without a
    [WorkingDirectory=] line, and goes on: the advisory path exits with
    status 0 and the privileged path starts the installation with the
    [mv] step. *)
Theorem C6_missing_working_directory_warns (w : World)
    (prog command_file service_name d : str) (text : str) :
  d <> [] ->
  stat w d <> Some Dir ->
  stat w command_file = Some (File text) ->
  strip text <> [] ->
  sanitize service_name <> [] ->
  staging_ready w (sanitize service_name) = true ->
  let name := sanitize service_name in
  exists (code : Z) (w' : World) (rest : list event),
    run [prog; command_file; service_name; d] w = (code, w')
    /\ new_events w w'
       = Print (py "Warning: Working directory '" ++ d ++ py "' does not exist.")
         :: Write (staging_path name)
              (unit_file name (ExecStart_value w (strip text)) None)
         :: rest
    /\ writes rest = []
    /\ (euid w <> 0%Z -> code = 0%Z)
    /\ (euid w = 0%Z ->
        head (execs rest) = Some [py "mv"; staging_path name; system_path name]).
Proof.
  intros Hd Hnodir Hstat Hcmd Hname Hready name.
  destruct (create_service_observed w command_file service_name (Some d) text
              Hstat Hcmd Hname Hready)
    as (r & w' & rest & Hrun & Hev & Hrest & Hadv & Hinst).
  pose proof (run_arguments_of w prog command_file service_name (Some d)) as Hmain.
  cbn [app] in Hmain. rewrite Hrun in Hmain.
  eexists _, w', rest. split; [exact Hmain|].
  assert (Hwarn : warnings w (Some d) = [Print (warning_line d)]).
  { unfold warnings. destruct d as [|c d']; [done|]. cbn [truthy andb].
    by destruct (stat w (c :: d')) as [[|]|]. }
  assert (Hwd : WorkingDirectory_value w (Some d) = None).
  { unfold WorkingDirectory_value. simpl. by destruct (stat w d) as [[|]|]. }
  rewrite Hwarn, Hwd in Hev.
  split; [exact Hev|]. split; [exact Hrest|]. split.
  - intros Hne. by destruct (Hadv Hne) as (-> & _).
  - exact Hinst.
Qed.

(** [create_service] returns [True] exactly on a successful run; otherwise
    it returns [False] or an [OSError] escapes. *)
Lemma create_service_outcome (w : World) (command_file service_name : str)
    (working_directory : option str) :
  ((create_service command_file service_name working_directory w).1 = Ret true
   <-> succeeds w command_file service_name working_directory)
  /\ ((create_service command_file service_name working_directory w).1 = Ret true
      \/ (create_service command_file service_name working_directory w).1
         = Ret false
      \/ exists p,
           (create_service command_file service_name working_directory w).1
           = Raise (OSError p)).
Proof.
  unfold succeeds.
  destruct (stat w command_file) as [[text|]|] eqn:Hstat.
  - destruct (strip text) as [|c0 cmd0] eqn:Hcmd.
    { rewrite (create_service_empty_command _ _ _ _ text) by done. cbn [fst].
      split; [|by eauto]. split; [done|].
      intros (text' & [= <-] & Hne & _). congruence. }
    destruct (sanitize service_name) as [|n0 name0] eqn:Hname.
    { rewrite (create_service_no_valid_characters _ _ _ _ text)
        by (done || congruence).
      cbn [fst]. split; [|by eauto]. split; [done|].
      intros (text' & _ & _ & Hne & _). done. }
    rewrite (create_service_valid _ _ _ _ text) by (done || congruence).
    cbv zeta. rewrite Hcmd, Hname.
    destruct (staging_ready w (n0 :: name0)) eqn:Hready.
    2:{ cbn [fst]. split; [|by eauto]. split; [done|].
        intros (text' & _ & _ & _ & Hr & _). done. }
    destruct (euid w =? 0)%Z eqn:Euid; cbn [negb].
    + apply Z.eqb_eq in Euid. rewrite install_run.
      unfold install_failure, staging_key.
      change (files (staged _ ?c _)) with
        (<[ [py "tmp"; (n0 :: name0) ++ py ".service"] := File c ]> (files w)).
      change (machine (staged _ _ _)) with (machine w).
      destruct (run_steps _ _ _) as [[[started failure] fs] h] eqn:Erun.
      cbn [fst]. split.
      * split.
        -- intros [= Hb]. apply bool_decide_eq_true in Hb.
           exists text. split; [done|]. split; [congruence|].
           split; [done|]. split; [done|]. right.
           rewrite Hcmd, Erun. exact Hb.
        -- intros (text' & [= <-] & _ & _ & _ & [Hne | Hnone]); [done|].
           rewrite Hcmd, Erun in Hnone. simpl in Hnone. subst failure. done.
      * destruct failure; [right; left | left]; done.
    + apply Z.eqb_neq in Euid. cbn [fst]. split; [|by left].
      split; [|done]. intros _. exists text. split; [done|].
      split; [congruence|]. split; [done|]. split; [done|]. by left.
  - rewrite create_service_not_a_file by done. cbn [fst].
    split; [|by eauto]. split; [done|]. intros (text' & ? & _). done.
  - rewrite create_service_not_found by done. cbn [fst].
    split; [|by eauto]. split; [done|]. intros (text' & ? & _). done.
Qed.

(** Claim C7.  The exit status is 0 or 1.  With an argument count other
    than 2 or 3 (a [sys.argv] of length other than 3 or 4) the usage
    message is printed, nothing else happens and the status is 1.
    Otherwise the status is 0 exactly when the run succeeds (valid
    command and name, staging file written and, for root, no failing
    installation step; an advisory run is a success), and 1 exactly when
    it does not. *)
Theorem C7_exit_codes (w : World) (argv : list str) :
  ((run argv w).1 = 0%Z \/ (run argv w).1 = 1%Z)
  /\ (~ (length argv = 3 \/ length argv = 4)%nat ->
      (run argv w).1 = 1%Z
      /\ new_events w (run argv w).2 = [Print usage_line]
      /\ files (run argv w).2 = files w
      /\ machine (run argv w).2 = machine w)
  /\ ((length argv = 3 \/ length argv = 4)%nat ->
      ((run argv w).1 = 0%Z
       <-> succeeds w (nth 1 argv []) (nth 2 argv [])
             (working_directory_argument argv))
      /\ ((run argv w).1 = 1%Z
          <-> ~ succeeds w (nth 1 argv []) (nth 2 argv [])
                  (working_directory_argument argv))).
Proof.
  assert (Hargs : (length argv = 3 \/ length argv = 4)%nat ->
    ((run argv w).1 = 0%Z \/ (run argv w).1 = 1%Z)
    /\ ((run argv w).1 = 0%Z
        <-> succeeds w (nth 1 argv []) (nth 2 argv [])
              (working_directory_argument argv))
    /\ ((run argv w).1 = 1%Z
        <-> ~ succeeds w (nth 1 argv []) (nth 2 argv [])
                (working_directory_argument argv))).
  { intros Hlen. rewrite run_arguments by done.
    destruct (create_service_outcome w (nth 1 argv []) (nth 2 argv [])
                (working_directory_argument argv)) as [Hiff Hcases].
    destruct (create_service _ _ _ w) as [o w'] eqn:Erun. cbn [fst] in *.
    destruct Hcases as [-> | [-> | [p ->]]]; cbn [exit_status fst].
    - split; [by left|].
      split; [split; [intros _; by apply Hiff | done]|].
      split; [done|]. intros Hn. exfalso. apply Hn. by apply Hiff.
    - split; [by right|].
      split; [split; [done|]; intros Hs; apply Hiff in Hs; done|].
      split; [|done]. intros _ Hs. apply Hiff in Hs. done.
    - split; [by right|].
      split; [split; [done|]; intros Hs; apply Hiff in Hs; done|].
      split; [|done]. intros _ Hs. apply Hiff in Hs. done. }
  split; [|split; [|intros Hlen; by apply Hargs]].
  - destruct (decide (length argv = 3 \/ length argv = 4)%nat) as [Hlen|Hlen].
    + by apply Hargs.
    + right. by rewrite run_usage.
  - intros Hlen. rewrite run_usage by done. cbn [fst snd].
    rewrite new_events_log'. done.
Qed.
(** The script looks at the tree and at the current directory only. *)
Lemma stat_ext (w1 w2 : World) (p : str) :
  files w1 = files w2 -> cwd w1 = cwd w2 -> stat w1 p = stat w2 p.
Proof. intros Hf Hc. unfold stat, locate. by rewrite Hf, Hc. Qed.

Lemma ExecStart_value_ext (w1 w2 : World) (command : str) :
  files w1 = files w2 -> cwd w1 = cwd w2 ->
  ExecStart_value w1 command = ExecStart_value w2 command.
Proof.
  intros Hf Hc. unfold ExecStart_value.
  by rewrite (stat_ext w1 w2), Hc.
Qed.

Lemma WorkingDirectory_value_ext (w1 w2 : World) (wd : option str) :
  files w1 = files w2 -> cwd w1 = cwd w2 ->
  WorkingDirectory_value w1 wd = WorkingDirectory_value w2 wd.
Proof.
  intros Hf Hc. unfold WorkingDirectory_value. destruct wd as [d|]; [|done].
  simpl. by rewrite (stat_ext w1 w2), Hc.
Qed.

Lemma warnings_ext (w1 w2 : World) (wd : option str) :
  files w1 = files w2 -> cwd w1 = cwd w2 -> warnings w1 wd = warnings w2 wd.
Proof.
  intros Hf Hc. unfold warnings. destruct wd as [d|]; [|done].
  by rewrite (stat_ext w1 w2).
Qed.

(** Claim C8.  Two advisory runs (effective user id not 0) with the
    same arguments, started from worlds with the same file tree and the
    same current directory, return the same result, produce the same
    events, leave the same tree and, when they stage a file, stage the
    same bytes at the same staging path. *)
Theorem C8_advisory_run_is_repeatable (w1 w2 : World)
    (command_file service_name : str) (working_directory : option str) :
  files w1 = files w2 ->
  cwd w1 = cwd w2 ->
  euid w1 <> 0%Z ->
  euid w2 <> 0%Z ->
  let r1 := create_service command_file service_name working_directory w1 in
  let r2 := create_service command_file service_name working_directory w2 in
  r1.1 = r2.1
  /\ new_events w1 r1.2 = new_events w2 r2.2
  /\ files r1.2 = files r2.2
  /\ (r1.1 = Ret true ->
      exists content,
        writes (new_events w1 r1.2)
        = [(py "/tmp/" ++ sanitize service_name ++ py ".service", content)]
        /\ writes (new_events w2 r2.2)
           = [(py "/tmp/" ++ sanitize service_name ++ py ".service", content)]
        /\ files r1.2 !! staging_key (sanitize service_name) = Some (File content)
        /\ files r2.2 !! staging_key (sanitize service_name) = Some (File content)).
Proof.
  intros Hf Hc Hu1 Hu2 r1 r2. unfold r1, r2. clear r1 r2.
  pose proof (stat_ext w1 w2 command_file Hf Hc) as Hs.
  destruct (stat w2 command_file) as [[text|]|] eqn:Hstat.
  - destruct (decide (strip text = [])) as [Hcmd|Hcmd].
    { rewrite !(create_service_empty_command _ _ _ _ text) by done.
      cbn [fst snd]. rewrite !new_events_log'. by repeat split. }
    destruct (decide (sanitize service_name = [])) as [Hname|Hname].
    { rewrite !(create_service_no_valid_characters _ _ _ _ text) by done.
      cbn [fst snd]. rewrite !new_events_log'. by repeat split. }
    assert (Hr : staging_ready w1 (sanitize service_name)
                 = staging_ready w2 (sanitize service_name)).
    { unfold staging_ready. by rewrite Hf. }
    destruct (staging_ready w2 (sanitize service_name)) eqn:Hready.
    + rewrite !(create_service_ready _ _ _ _ text) by done.
      cbv zeta.
      rewrite (ExecStart_value_ext w1 w2), (WorkingDirectory_value_ext w1 w2),
        (warnings_ext w1 w2) by done.
      apply Z.eqb_neq in Hu1, Hu2. rewrite Hu1, Hu2. cbn [negb fst snd].
      rewrite !new_events_log. cbn [files log set_state]. rewrite Hf.
      split; [done|]. split; [done|]. split; [done|]. intros _.
      eexists. rewrite !writes_app, writes_warnings, writes_Print.
      split; [reflexivity|]. split; [reflexivity|].
      unfold staging_key. by rewrite lookup_insert_eq.
    + rewrite !(create_service_valid _ _ _ _ text) by done.
      cbv zeta. rewrite Hr, Hready. rewrite (warnings_ext w1 w2) by done.
      cbn [fst snd]. rewrite !new_events_log'. cbn [files log]. by repeat split.
  - rewrite !create_service_not_a_file by done. cbn [fst snd].
    rewrite !new_events_refl. by repeat split.
  - rewrite !create_service_not_found by done. cbn [fst snd].
    rewrite !new_events_log'. by repeat split.
Qed.

Lemma no_warning_in_advice (name : str) :
  Forall (fun l => is_warning l = false) (advice name).
Proof. unfold advice. repeat constructor. Qed.

Lemma no_warning_in_install_report (name : str) (failure : option (list str * Z)) :
  Forall (fun l => is_warning l = false) (install_report name failure).
Proof. destruct failure as [[cmd rc]|]; unfold install_report; repeat constructor. Qed.

(** Without a working directory no line printed is a warning. *)
Lemma no_warning_without_directory (w : World) (command_file service_name : str) :
  Forall (fun l => is_warning l = false)
    (prints (new_events w (create_service command_file service_name None w).2)).
Proof.
  destruct (stat w command_file) as [[text|]|] eqn:Hstat.
  - destruct (decide (strip text = [])) as [Hcmd|Hcmd].
    { rewrite (create_service_empty_command _ _ _ _ text) by done.
      cbn [snd]. rewrite new_events_log'. repeat constructor. }
    destruct (decide (sanitize service_name = [])) as [Hname|Hname].
    { rewrite (create_service_no_valid_characters _ _ _ _ text) by done.
      cbn [snd]. rewrite new_events_log'. repeat constructor. }
    destruct (staging_ready w (sanitize service_name)) eqn:Hready.
    + rewrite (create_service_ready _ _ _ _ text) by done. cbv zeta.
      destruct (negb (euid w =? 0)%Z).
      * cbn [snd]. rewrite new_events_log, !prints_app, prints_Print.
        apply no_warning_in_advice.
      * destruct (run_steps _ _ _) as [[[started failure] fs] h].
        cbn [snd]. rewrite new_events_log, !prints_app, prints_Exec, prints_Print.
        apply no_warning_in_install_report.
    + rewrite (create_service_valid _ _ _ _ text) by done. cbv zeta.
      rewrite Hready. cbn [snd]. rewrite new_events_log'. constructor.
  - rewrite create_service_not_a_file by done. cbn [snd].
    rewrite new_events_refl. constructor.
  - rewrite create_service_not_found by done. cbn [snd].
    rewrite new_events_log'. repeat constructor.
Qed.

(** Claim C9.  An empty working-directory argument is treated as no
    argument at all: [create_service] and the whole run behave exactly
    as without it, although the empty path names nothing that exists; no
    line printed is a warning, and every file written is a unit file
    without a [WorkingDirectory=] line. *)
Theorem C9_empty_working_directory_is_no_directory (w : World)
    (prog command_file service_name : str) :
  create_service command_file service_name (Some []) w
  = create_service command_file service_name None w
  /\ run [prog; command_file; service_name; []] w
     = run [prog; command_file; service_name] w
  /\ stat w [] = None
  /\ Forall (fun l => is_warning l = false)
       (prints (new_events w (run [prog; command_file; service_name; []] w).2))
  /\ (forall p content,
        In (p, content)
          (writes (new_events w (run [prog; command_file; service_name; []] w).2)) ->
        exists command,
          content = unit_file (sanitize service_name) command None).
Proof.
  assert (Hsame : create_service command_file service_name (Some []) w
                  = create_service command_file service_name None w)
    by reflexivity.
  assert (Hrun : run [prog; command_file; service_name; []] w
                 = run [prog; command_file; service_name] w).
  { pose proof (run_arguments_of w prog command_file service_name (Some [])) as H4.
    pose proof (run_arguments_of w prog command_file service_name None) as H3.
    cbn [app] in H4, H3. rewrite H4, H3, Hsame. reflexivity. }
  split; [exact Hsame|]. split; [exact Hrun|]. split; [reflexivity|].
  rewrite Hrun.
  pose proof (run_arguments_of w prog command_file service_name None) as H3.
  cbn [app] in H3. rewrite H3.
  pose proof (no_warning_without_directory w command_file service_name) as Hnw.
  destruct (create_service command_file service_name None w) as [o w'] eqn:Ecs.
  cbn [snd] in *. split; [exact Hnw|].
  intros p content Hin.
  destruct (stat w command_file) as [[text|]|] eqn:Hstat.
  - destruct (decide (strip text = [])) as [Hcmd|Hcmd].
    { rewrite (create_service_empty_command _ _ _ _ text) in Ecs by done.
      injection Ecs as <- <-. rewrite new_events_log' in Hin. destruct Hin. }
    destruct (decide (sanitize service_name = [])) as [Hname|Hname].
    { rewrite (create_service_no_valid_characters _ _ _ _ text) in Ecs by done.
      injection Ecs as <- <-. rewrite new_events_log' in Hin. destruct Hin. }
    destruct (staging_ready w (sanitize service_name)) eqn:Hready.
    + destruct (create_service_observed w command_file service_name None text
                  Hstat Hcmd Hname Hready)
        as (r & w'' & rest & Hrun' & Hev & Hrest & _).
      rewrite Ecs in Hrun'. injection Hrun' as -> ->.
      rewrite Hev, !writes_app, Hrest in Hin.
      destruct Hin as [[= <- <-]|[]]. eexists. reflexivity.
    + rewrite (create_service_valid _ _ _ _ text) in Ecs by done.
      cbv zeta in Ecs. rewrite Hready in Ecs.
      injection Ecs as <- <-. rewrite new_events_log' in Hin. destruct Hin.
  - rewrite create_service_not_a_file in Ecs by done.
    injection Ecs as <- <-. rewrite new_events_refl in Hin. destruct Hin.
  - rewrite create_service_not_found in Ecs by done.
    injection Ecs as <- <-. rewrite new_events_log' in Hin. destruct Hin.
Qed.

(** The letters of the Latin-1 supplement are alphanumeric. *)
Lemma isalnum_latin1_letters (c : codepoint) :
  0xC0 <= c <= 0xFF -> c <> 0xD7 -> c <> 0xF7 -> isalnum c = true.
Proof.
  intros [Hlo Hhi] Hmul Hdiv. unfold isalnum.
  replace (c <? 0x100) with true by (symmetry; apply N.ltb_lt; lia).
  unfold isalnum_latin1, between.
  destruct (decide (c <= 0xD6)) as [?|?].
  { replace ((0xC0 <=? c) && (c <=? 0xD6)) with true.
    - by rewrite !orb_true_r.
    - symmetry. apply andb_true_intro. split; apply N.leb_le; lia. }
  destruct (decide (c <= 0xF6)) as [?|?].
  { replace ((0xD8 <=? c) && (c <=? 0xF6)) with true.
    - by rewrite !orb_true_r.
    - symmetry. apply andb_true_intro. split; apply N.leb_le; lia. }
  replace ((0xF8 <=? c) && (c <=? 0xFF)) with true.
  - by rewrite !orb_true_r.
  - symmetry. apply andb_true_intro. split; apply N.leb_le; lia.
Qed.

Lemma filter_all (A : Type) (f : A -> bool) (l : list A) :
  Forall (fun x => f x = true) l -> List.filter f l = l.
Proof.
  induction 1 as [|x l Hx Hl IH]; [done|]. simpl. by rewrite Hx, IH.
Qed.

(** Claim C10.  Sanitization keeps every character that [str.isalnum]
    accepts, not only ASCII letters and digits: the letters of the
    Latin-1 supplement (U+00C0 to U+00FF except the two operators) lie
    outside ASCII and are alphanumeric, and a non-empty name made of
    alphanumeric characters only is kept whole and becomes the stem of
    the staged file, [/tmp/<name>.service]. *)
Theorem C10_unicode_alphanumerics_kept (w : World)
    (command_file service_name : str) (working_directory : option str)
    (text : str) :
  (forall c, 0xC0 <= c <= 0xFF -> c <> 0xD7 -> c <> 0xF7 ->
             0x7F < c /\ isalnum c = true)
  /\ (service_name <> [] ->
      Forall (fun c => isalnum c = true) service_name ->
      sanitize service_name = service_name
      /\ (stat w command_file = Some (File text) ->
          strip text <> [] ->
          staging_ready w service_name = true ->
          exists (r : bool) (w' : World) (content : str),
            create_service command_file service_name working_directory w
            = (Ret r, w')
            /\ writes (new_events w w')
               = [(py "/tmp/" ++ service_name ++ py ".service", content)])).
Proof.
  split.
  { intros c Hc H1 H2. split; [lia | by apply isalnum_latin1_letters]. }
  intros Hne Halnum.
  assert (Hsan : sanitize service_name = service_name).
  { rewrite sanitize_filter. apply filter_all.
    eapply Forall_impl; [exact Halnum|]. intros c Hc. unfold allowed.
    by rewrite Hc. }
  split; [exact Hsan|]. intros Hstat Hcmd Hready.
  rewrite <- Hsan in Hready, Hne.
  destruct (create_service_observed w command_file service_name
              working_directory text Hstat Hcmd Hne Hready)
    as (r & w' & rest & Hrun & Hev & Hrest & Hadv & Hinst).
  rewrite Hsan in *.
  eexists r, w', _. split; [exact Hrun|].
  rewrite Hev, !writes_app, writes_warnings, Hrest. reflexivity.
Qed.
End Claims.

(** ** The claims on the concrete machine *)

(** C1 on the concrete machine: a user staging [My Service!] with the
    working directory [/tmp]. *)
Lemma C1_unit_file_template_witness :
  exists (r : bool) (w' : @World Demo.plain),
    create_service (py "cmd.txt") (py "My Service!") (Some (py "/tmp")) Demo.user
    = (Ret r, w')
    /\ writes (new_events Demo.user w')
       = [ (py "/tmp/MyService.service", py "[Unit]
Description=MyService service
After=network.target

[Service]
Type=simple
ExecStart=/usr/bin/myserver --port 8080
WorkingDirectory=/tmp
Restart=on-failure
RestartSec=5
StandardOutput=journal
StandardError=journal

[Install]
WantedBy=multi-user.target
") ].
Proof.
  destruct (@C1_unit_file_template Demo.plain Demo.user (py "cmd.txt")
              (py "My Service!") (Some (py "/tmp"))
              (py "/usr/bin/myserver --port 8080
"))
    as (o & w' & Hrun & Hcase & _).
  - vm_compute. reflexivity.
  - vm_compute. discriminate.
  - vm_compute. discriminate.
  - replace (staging_ready Demo.user (sanitize (py "My Service!"))) with true
      in Hcase by (vm_compute; reflexivity).
    destruct Hcase as [[r ->] Hwrites].
    exists r, w'. split; [exact Hrun|]. rewrite Hwrites. vm_compute. reflexivity.
Defined.

(** C2 on the concrete machine: root installs, [systemctl enable] fails; the
    file stays moved and the daemon reloaded. *)
Lemma C2_install_stops_at_first_failure_witness :
  exists (w' : @World Demo.enable_fails),
    create_service (py "cmd.txt") (py "My Service!") None Demo.root = (Ret false, w')
    /\ execs (new_events Demo.root w')
       = [ [py "mv"; py "/tmp/MyService.service";
            py "/etc/systemd/system/MyService.service"];
           [py "systemctl"; py "daemon-reload"];
           [py "systemctl"; py "enable"; py "MyService.service"] ]
    /\ is_Some (files w' !! [py "etc"; py "systemd"; py "system"; py "MyService.service"])
    /\ files w' !! [py "tmp"; py "MyService.service"] = None
    /\ machine w' = [[py "systemctl"; py "daemon-reload"]]
    /\ last (events w')
       = Some (Print (py "Error: Failed to install service. Command '['systemctl', 'enable', 'MyService.service']' returned non-zero exit status 1.")).
Proof.
  pose proof (@C2_install_stops_at_first_failure Demo.enable_fails Demo.root
                (py "cmd.txt") (py "My Service!") None
                (py "/usr/bin/myserver --port 8080
")) as Hclaim.
  destruct Hclaim as (started & failure & fs & h & r & w' & Hsteps & Hrun & Hexecs
                      & _ & Hfs & Hh & Hfail).
  - vm_compute. reflexivity.
  - vm_compute. discriminate.
  - vm_compute. discriminate.
  - vm_compute. reflexivity.
  - reflexivity.
  - pose proof (f_equal (fun x => x.1.1.1) Hsteps) as Hstarted.
    pose proof (f_equal (fun x => x.1.1.2) Hsteps) as Hfailure.
    pose proof (f_equal (fun x => x.1.2) Hsteps) as Hfiles.
    pose proof (f_equal snd Hsteps) as Hhost.
    clear Hsteps.
    vm_compute in Hstarted. vm_compute in Hfailure. cbv beta in Hfiles, Hhost.
    cbn [fst snd] in Hfiles, Hhost.
    rewrite <- Hstarted in Hexecs. rewrite <- Hfailure in Hfail.
    destruct Hfail as (-> & _ & _ & Hlast).
    exists w'. split; [exact Hrun|]. split; [exact Hexecs|].
    rewrite Hfs, Hh, Hlast, <- Hfiles, <- Hhost.
    split; [vm_compute; eexists; reflexivity|].
    split; [vm_compute; reflexivity|].
    split; [vm_compute; reflexivity|].
    vm_compute. reflexivity.
Defined.

(** C3 on the concrete machine: [My Service!] becomes [MyService]; the name
    [!?] is rejected. *)
Lemma C3_sanitized_name_is_filename_stem_witness :
  @sanitize Demo.plain (py "My Service!") = py "MyService"
  /\ (exists (r : bool) (w' : @World Demo.plain) (content : str),
        create_service (py "cmd.txt") (py "My Service!") None Demo.user = (Ret r, w')
        /\ writes (new_events Demo.user w')
           = [(py "/tmp/MyService.service", content)]
        /\ In (py "sudo mv /tmp/MyService.service /etc/systemd/system/MyService.service")
             (prints (new_events Demo.user w')))
  /\ (let argv := [py "service_creator.py"; py "cmd.txt"; py "!?"] in
      (run argv Demo.user).1 = 1%Z
      /\ files (run argv Demo.user).2 = files Demo.user
      /\ writes (new_events Demo.user (run argv Demo.user).2) = []).
Proof.
  split; [|split].
  - destruct (@C3_sanitized_name_is_filename_stem Demo.plain Demo.user
                (py "cmd.txt") (py "My Service!") None) as (Hfilter & _ & _).
    rewrite Hfilter. vm_compute. reflexivity.
  - destruct (@C3_sanitized_name_is_filename_stem Demo.plain Demo.user
                (py "cmd.txt") (py "My Service!") None) as (_ & Hstem & _).
    destruct (Hstem (py "/usr/bin/myserver --port 8080
")) as (r & w' & content & Hrun & Hwrites & Hadvice & _).
    + vm_compute. reflexivity.
    + vm_compute. discriminate.
    + vm_compute. discriminate.
    + vm_compute. reflexivity.
    + exists r, w', content. split; [exact Hrun|]. split; [exact Hwrites|].
      apply Hadvice. vm_compute. discriminate.
  - destruct (@C3_sanitized_name_is_filename_stem Demo.plain Demo.user
                (py "cmd.txt") (py "!?") None) as (_ & _ & Hempty).
    destruct (Hempty ltac:(vm_compute; reflexivity) (py "service_creator.py"))
      as (Hcode & Hfiles & Hwrites & _).
    repeat split; assumption.
Defined.

(** C4 as stated fails: the command [a<TAB>b] contains whitespace but no
    space character, a file of that name exists in the current directory,
    and the staged file holds the absolute path, not the untouched text. *)
Lemma C4_counterexample :
  let command := py "a" ++ [0x09] ++ py "b" in
  command_in Demo.user (py "tab.txt") = Some command
  /\ existsb isspace command = true
  /\ contains 0x20 command = false
  /\ stat Demo.user command = Some (File (py "#!/bin/sh
"))
  /\ ExecStart_value_no_whitespace Demo.user command = command
  /\ (normalize_command command Demo.user).1
     = Ret (py "/work/a" ++ [0x09] ++ py "b")
  /\ writes (new_events Demo.user
               (create_service (py "tab.txt") (py "svc") None Demo.user).2)
     = [ (py "/tmp/svc.service",
          unit_file (py "svc") (py "/work/a" ++ [0x09] ++ py "b") None) ]
  /\ unit_file (py "svc") (py "/work/a" ++ [0x09] ++ py "b") None
     <> unit_file (py "svc") (ExecStart_value_no_whitespace Demo.user command) None.
Proof.
  repeat split; try (vm_compute; reflexivity).
  vm_compute. discriminate.
Qed.

(** C4, amended, on the same input. *)
Lemma C4_command_made_absolute_witness :
  let command := py "a" ++ [0x09] ++ py "b" in
  normalize_command command Demo.user
  = (Ret (py "/work/a" ++ [0x09] ++ py "b"), Demo.user)
  /\ exists (r : bool) (w' : @World Demo.plain) (before after : list str),
       create_service (py "tab.txt") (py "svc") None Demo.user = (Ret r, w')
       /\ length before = 6%nat
       /\ writes (new_events Demo.user w')
          = [ (py "/tmp/svc.service",
               lines (before ++ [py "ExecStart=/work/a" ++ [0x09] ++ py "b"] ++ after)) ].
Proof.
  destruct (@C4_command_made_absolute Demo.plain Demo.user (py "tab.txt") (py "svc")
              None (py "a" ++ [0x09] ++ py "b" ++ [0x0A]))
    as (Hnorm & _ & _ & r & w' & before & after & Hrun & Hlen & Hwrites).
  - vm_compute. reflexivity.
  - vm_compute. discriminate.
  - vm_compute. discriminate.
  - vm_compute. reflexivity.
  - split.
    + exact Hnorm.
    + exists r, w', before, after. split; [exact Hrun|]. split; [exact Hlen|].
      exact Hwrites.
Defined.

(** C5 on the concrete machine: a missing command file and one that holds
    only whitespace. *)
Lemma C5_no_command_no_unit_file_witness :
  (let argv := [py "service_creator.py"; py "missing.txt"; py "svc"] in
   (run argv Demo.user).1 = 1%Z
   /\ files (run argv Demo.user).2 = files Demo.user
   /\ prints (new_events Demo.user (run argv Demo.user).2)
      = [py "Error: Command file 'missing.txt' not found."])
  /\ (let argv := [py "service_creator.py"; py "empty.txt"; py "svc"; py "/tmp"] in
      (run argv Demo.user).1 = 1%Z
      /\ files (run argv Demo.user).2 = files Demo.user
      /\ prints (new_events Demo.user (run argv Demo.user).2)
         = [py "Error: Command file is empty."]).
Proof.
  split.
  - destruct (@C5_no_command_no_unit_file Demo.plain Demo.user
                (py "service_creator.py") (py "missing.txt") (py "svc") None)
      as (Hcode & Hfiles & _ & _ & _ & Hprints).
    + left. vm_compute. reflexivity.
    + split; [exact Hcode|]. split; [exact Hfiles|]. exact Hprints.
  - destruct (@C5_no_command_no_unit_file Demo.plain Demo.user
                (py "service_creator.py") (py "empty.txt") (py "svc")
                (Some (py "/tmp")))
      as (Hcode & Hfiles & _ & _ & _ & Hprints).
    + right. exists [0x0A; 0x20; 0x20]. split; vm_compute; reflexivity.
    + split; [exact Hcode|]. split; [exact Hfiles|]. exact Hprints.
Defined.

(** C6 as stated fails: the empty string is a supplied argument that names
    no existing directory, yet the run prints no warning. *)
Lemma C6_counterexample :
  let argv := [py "service_creator.py"; py "cmd.txt"; py "svc"; py ""] in
  length argv = 4%nat
  /\ working_directory_argument argv = Some (py "")
  /\ stat Demo.user (py "") = None
  /\ (run argv Demo.user).1 = 0%Z
  /\ List.filter is_warning (prints (new_events Demo.user (run argv Demo.user).2)) = []
  /\ prints (new_events Demo.user (run argv Demo.user).2)
     = advice (py "svc").
Proof. repeat split; vm_compute; reflexivity. Qed.

(** C6, amended, on the concrete machine with [/nowhere]. *)
Lemma C6_missing_working_directory_warns_witness :
  exists (w' : @World Demo.plain) (rest : list event),
    run [py "service_creator.py"; py "cmd.txt"; py "svc"; py "/nowhere"] Demo.user
    = (0%Z, w')
    /\ new_events Demo.user w'
       = Print (py "Warning: Working directory '/nowhere' does not exist.")
         :: Write (py "/tmp/svc.service")
              (unit_file (py "svc") (py "/usr/bin/myserver --port 8080") None)
         :: rest
    /\ writes rest = [].
Proof.
  destruct (@C6_missing_working_directory_warns Demo.plain Demo.user
              (py "service_creator.py") (py "cmd.txt") (py "svc") (py "/nowhere")
              (py "/usr/bin/myserver --port 8080
"))
    as (code & w' & rest & Hrun & Hevents & Hrest & Hcode & _).
  - vm_compute. discriminate.
  - vm_compute. discriminate.
  - vm_compute. reflexivity.
  - vm_compute. discriminate.
  - vm_compute. discriminate.
  - vm_compute. reflexivity.
  - rewrite Hcode in Hrun by (vm_compute; discriminate).
    exists w', rest. split; [exact Hrun|]. split; [exact Hevents|]. exact Hrest.
Defined.

(** C7 on the concrete machine: a successful advisory run, a failed
    installation, and a missing argument. *)
Lemma C7_exit_codes_witness :
  (run [py "service_creator.py"; py "cmd.txt"; py "My Service!"] Demo.user).1 = 0%Z
  /\ (run [py "service_creator.py"; py "cmd.txt"; py "My Service!"] Demo.root).1 = 1%Z
  /\ (run [py "service_creator.py"; py "cmd.txt"] Demo.user).1 = 1%Z.
Proof.
  split; [|split].
  - destruct (@C7_exit_codes Demo.plain Demo.user
                [py "service_creator.py"; py "cmd.txt"; py "My Service!"])
      as (_ & _ & Hargs).
    destruct (Hargs ltac:(left; reflexivity)) as [[_ Hzero] _].
    apply Hzero. exists (py "/usr/bin/myserver --port 8080
").
    split; [vm_compute; reflexivity|]. split; [vm_compute; discriminate|].
    split; [vm_compute; discriminate|]. split; [vm_compute; reflexivity|].
    left. vm_compute. discriminate.
  - destruct (@C7_exit_codes Demo.enable_fails Demo.root
                [py "service_creator.py"; py "cmd.txt"; py "My Service!"])
      as (_ & _ & Hargs).
    destruct (Hargs ltac:(left; reflexivity)) as [_ [_ Hone]].
    apply Hone. intros (text & Hstat & _ & _ & _ & [Hne | Hnone]).
    + apply Hne. reflexivity.
    + vm_compute in Hstat. injection Hstat as <-.
      vm_compute in Hnone. discriminate Hnone.
  - destruct (@C7_exit_codes Demo.plain Demo.user
                [py "service_creator.py"; py "cmd.txt"])
      as (_ & Husage & _).
    apply Husage. simpl. lia.
Defined.

(** C8 on the concrete machine: two users with different identities and
    different earlier output. *)
Lemma C8_advisory_run_is_repeatable_witness :
  let r1 := create_service (py "cmd.txt") (py "My Service!") (Some (py "/tmp")) Demo.user in
  let r2 := create_service (py "cmd.txt") (py "My Service!") (Some (py "/tmp"))
              Demo.other_user in
  events Demo.user <> events Demo.other_user
  /\ euid Demo.user <> euid Demo.other_user
  /\ r1.1 = r2.1
  /\ new_events Demo.user r1.2 = new_events Demo.other_user r2.2
  /\ exists content,
       files r1.2 !! [py "tmp"; py "MyService.service"] = Some (File content)
       /\ files r2.2 !! [py "tmp"; py "MyService.service"] = Some (File content).
Proof.
  intros r1 r2.
  destruct (@C8_advisory_run_is_repeatable Demo.plain Demo.user Demo.other_user
              (py "cmd.txt") (py "My Service!") (Some (py "/tmp")))
    as (Hresult & Hevents & _ & Hstaged).
  - reflexivity.
  - reflexivity.
  - vm_compute. discriminate.
  - vm_compute. discriminate.
  - split; [vm_compute; discriminate|]. split; [vm_compute; discriminate|].
    split; [exact Hresult|]. split; [exact Hevents|].
    destruct Hstaged as (content & _ & _ & H1 & H2).
    + vm_compute. reflexivity.
    + exists content. split; [exact H1 | exact H2].
Defined.

(** C9 on the concrete machine. *)
Lemma C9_empty_working_directory_is_no_directory_witness :
  run [py "service_creator.py"; py "cmd.txt"; py "svc"; py ""] Demo.user
  = run [py "service_creator.py"; py "cmd.txt"; py "svc"] Demo.user
  /\ Forall (fun l => is_warning l = false)
       (prints (new_events Demo.user
                  (run [py "service_creator.py"; py "cmd.txt"; py "svc"; py ""]
                     Demo.user).2)).
Proof.
  destruct (@C9_empty_working_directory_is_no_directory Demo.plain Demo.user
              (py "service_creator.py") (py "cmd.txt") (py "svc"))
    as (_ & Hrun & _ & Hquiet & _).
  split; [exact Hrun | exact Hquiet].
Defined.

(** C10 on the concrete machine: the name U+00E9 U+03B1. *)
Lemma C10_unicode_alphanumerics_kept_witness :
  @isalnum Demo.plain 0xE9 = true
  /\ @sanitize Demo.plain [0xE9; 0x3B1] = [0xE9; 0x3B1]
  /\ exists (r : bool) (w' : @World Demo.plain) (content : str),
       create_service (py "cmd.txt") [0xE9; 0x3B1] None Demo.user = (Ret r, w')
       /\ writes (new_events Demo.user w')
          = [(py "/tmp/" ++ [0xE9; 0x3B1] ++ py ".service", content)].
Proof.
  destruct (@C10_unicode_alphanumerics_kept Demo.plain Demo.user (py "cmd.txt")
              [0xE9; 0x3B1] None (py "/usr/bin/myserver --port 8080
"))
    as (Hletters & Hkept).
  split.
  { apply (Hletters 0xE9); [split; vm_compute; discriminate | discriminate
                            | discriminate]. }
  destruct Hkept as (Hsan & Hstaged).
  - discriminate.
  - repeat constructor.
  - split; [exact Hsan|]. apply Hstaged.
    + vm_compute. reflexivity.
    + vm_compute. discriminate.
    + vm_compute. reflexivity.
Defined.

(** * Further properties of the script *)

Section Further.
Context `{Platform}.

(** X1.  Sanitizing a sanitized name changes nothing, so a run given the
    sanitized name is the same run: same result, same files, same
    output. *)
Theorem X1_sanitize_idempotent (w : World) (command_file service_name : str)
    (working_directory : option str) :
  sanitize (sanitize service_name) = sanitize service_name
  /\ create_service command_file (sanitize service_name) working_directory w
     = create_service command_file service_name working_directory w.
Proof.
  assert (Hidem : sanitize (sanitize service_name) = sanitize service_name).
  { rewrite (sanitize_filter (sanitize service_name)).
    apply filter_all, sanitize_allowed. }
  split; [exact Hidem|].
  unfold create_service. rewrite Hidem. reflexivity.
Qed.

(** X2.  Of the ASCII characters of a service name, the ones that survive
    sanitization are exactly the digits, the letters, [-] and [_]: no
    space, slash, dot, quote or shell metacharacter is kept. *)
Theorem X2_sanitize_ascii_characters (service_name : str) (c : codepoint) :
  c < 0x80 ->
  In c (sanitize service_name)
  <-> In c service_name
      /\ (0x30 <= c <= 0x39 \/ 0x41 <= c <= 0x5A \/ 0x61 <= c <= 0x7A
          \/ c = 0x2D \/ c = 0x5F).
Proof.
  intros Hascii. rewrite sanitize_filter, filter_In.
  assert (Hallowed : allowed c = true
            <-> (0x30 <= c <= 0x39 \/ 0x41 <= c <= 0x5A \/ 0x61 <= c <= 0x7A
                 \/ c = 0x2D \/ c = 0x5F)).
  { unfold allowed, isalnum.
    replace (c <? 0x100) with true by (symmetry; apply N.ltb_lt; lia).
    unfold isalnum_latin1, between.
    rewrite !orb_true_iff, !andb_true_iff, !N.leb_le, !N.eqb_eq. lia. }
  by rewrite Hallowed.
Qed.

(** X3.  Whatever the service name argument, the staging path has exactly
    one component under [/tmp] and the installation target exactly one
    under [/etc/systemd/system], and that component is neither [.] nor
    [..]: a service name cannot direct the files elsewhere.  The staging
    path names the entry [<name>.service] of [/tmp] when [/tmp] is a
    directory, and nothing otherwise. *)
Theorem X3_service_files_stay_in_place (w : World) (service_name : str) :
  let name := sanitize service_name in
  split posixpath.sep (py "/tmp/" ++ name ++ py ".service")
  = [py ""; py "tmp"; name ++ py ".service"]
  /\ split posixpath.sep (py "/etc/systemd/system/" ++ name ++ py ".service")
     = [py ""; py "etc"; py "systemd"; py "system"; name ++ py ".service"]
  /\ name ++ py ".service" <> py "." /\ name ++ py ".service" <> py ".."
  /\ locate w (py "/tmp/" ++ name ++ py ".service")
     = if is_dir_at (files w) [py "tmp"]
       then Some [py "tmp"; name ++ py ".service"] else None.
Proof.
  intros name.
  assert (Hsep : contains posixpath.sep (name ++ py ".service") = false).
  { rewrite contains_app, (contains_allowed posixpath.sep name);
      [done | done | apply sanitize_allowed]. }
  split; [|split; [|split; [|split]]].
  - change (py "/tmp/") with [47; 116; 109; 112; 47]. simpl.
    by rewrite split_no_sep.
  - change (py "/etc/systemd/system/")
      with [47; 101; 116; 99; 47; 115; 121; 115; 116; 101; 109; 100; 47;
            115; 121; 115; 116; 101; 109; 47].
    simpl. by rewrite split_no_sep.
  - intros E. apply (f_equal length) in E. rewrite length_app in E. simpl in E. lia.
  - intros E. apply (f_equal length) in E. rewrite length_app in E. simpl in E. lia.
  - apply locate_staging, sanitize_allowed.
Qed.

Lemma lstrip_nil (s : str) :
  lstrip s = [] <-> Forall (fun c => isspace c = true) s.
Proof.
  induction s as [|c s IH]; simpl.
  - split; [constructor | done].
  - destruct (isspace c) eqn:Ec.
    + rewrite IH. split; [by constructor | by inversion 1].
    + split; [done|]. inversion 1; congruence.
Qed.

Lemma lstrip_suffix (s : str) :
  exists before, s = before ++ lstrip s /\ Forall (fun c => isspace c = true) before.
Proof.
  induction s as [|c s (before & Heq & Hsp)]; simpl.
  - by exists [].
  - destruct (isspace c) eqn:Ec.
    + exists (c :: before). split; [simpl; by f_equal | by constructor].
    + by exists [].
Qed.

Lemma lstrip_head (s : str) (c : codepoint) :
  head (lstrip s) = Some c -> isspace c = false.
Proof.
  induction s as [|x s IH]; simpl; [done|].
  destruct (isspace x) eqn:Ex; [exact IH|]. simpl. congruence.
Qed.

Lemma last_rev (s : str) : last (rev s) = head s.
Proof. rewrite rev_alt. apply (last_reverse s). Qed.

Lemma head_rev (s : str) : head (rev s) = last s.
Proof. rewrite rev_alt. apply (head_reverse s). Qed.

Lemma strip_parts (text : str) :
  exists before after,
    text = before ++ strip text ++ after
    /\ Forall (fun c => isspace c = true) before
    /\ Forall (fun c => isspace c = true) after.
Proof.
  destruct (lstrip_suffix text) as (before & Htext & Hbefore).
  destruct (lstrip_suffix (rev (lstrip text))) as (tail & Hrev & Htail).
  exists before, (rev tail). split; [|split; [done|]].
  - unfold strip, rstrip. rewrite <- rev_app_distr, <- Hrev, rev_involutive.
    exact Htext.
  - by apply Forall_rev.
Qed.

Lemma strip_nil (text : str) :
  strip text = [] <-> Forall (fun c => isspace c = true) text.
Proof.
  split.
  - intros Hnil. destruct (strip_parts text) as (before & after & Htext & Hb & Ha).
    rewrite Htext, Hnil. apply Forall_app. split; [done|]. exact Ha.
  - intros Hall. apply lstrip_nil in Hall. unfold strip, rstrip.
    by rewrite Hall.
Qed.

Lemma strip_last (text : str) (c : codepoint) :
  last (strip text) = Some c -> isspace c = false.
Proof.
  unfold strip, rstrip. rewrite last_rev. apply lstrip_head.
Qed.

Lemma strip_head (text : str) (c : codepoint) :
  head (strip text) = Some c -> isspace c = false.
Proof.
  unfold strip, rstrip. rewrite head_rev.
  destruct (lstrip_suffix (rev (lstrip text))) as (tail & Hrev & Htail).
  intros Hlast.
  assert (Hl : last (rev (lstrip text)) = Some c).
  { rewrite Hrev. destruct (lstrip (rev (lstrip text))) as [|x l] eqn:E; [done|].
    rewrite last_app. by rewrite Hlast. }
  rewrite last_rev in Hl. by apply lstrip_head in Hl.
Qed.

(** X6.  A command file that holds only whitespace characters (of any
    kind [str.strip] removes) is reported as empty: the only output is
    the "empty" message, the status is 1 and nothing else changes. *)
Theorem X6_whitespace_only_command_file (w : World)
    (prog command_file service_name : str) (working_directory : option str)
    (text : str) :
  stat w command_file = Some (File text) ->
  Forall (fun c => isspace c = true) text ->
  run (prog :: command_file :: service_name
       :: match working_directory with Some d => [d] | None => [] end) w
  = (1%Z, log [Print (py "Error: Command file is empty.")] w).
Proof.
  intros Hstat Hall. rewrite run_arguments_of.
  rewrite (create_service_empty_command _ _ _ _ text); [done | done |].
  by apply strip_nil.
Qed.

(** X7.  The command is the text of the file without the whitespace
    around it: the text is whitespace, then the command, then whitespace;
    the command neither starts nor ends with a whitespace character, and
    it is empty exactly when the file holds only whitespace. *)
Theorem X7_command_is_trimmed (w : World) (command_file : str) (command : str) :
  command_in w command_file = Some command ->
  exists text before after,
    stat w command_file = Some (File text)
    /\ text = before ++ command ++ after
    /\ Forall (fun c => isspace c = true) before
    /\ Forall (fun c => isspace c = true) after
    /\ (forall c, head command = Some c -> isspace c = false)
    /\ (forall c, last command = Some c -> isspace c = false)
    /\ (command = [] <-> Forall (fun c => isspace c = true) text).
Proof.
  unfold command_in. destruct (stat w command_file) as [[text|]|]; try done.
  intros [= <-].
  destruct (strip_parts text) as (before & after & Htext & Hb & Ha).
  exists text, before, after. split; [done|]. split; [done|].
  split; [done|]. split; [done|].
  split; [apply strip_head|]. split; [apply strip_last | apply strip_nil].
Qed.

Lemma isabs_cons (p : str) :
  posixpath.isabs p = true <-> exists rest, p = posixpath.sep :: rest.
Proof.
  unfold posixpath.isabs. destruct p as [|c rest]; cbn [startswith].
  - split; [done | intros [? ?]; done].
  - rewrite andb_true_r, N.eqb_eq. split.
    + intros <-. by exists rest.
    + by intros (rest' & [= -> _]).
Qed.

Lemma normpath_isabs (path : str) :
  posixpath.isabs path = true -> posixpath.isabs (posixpath.normpath path) = true.
Proof.
  intros Habs. pose proof Habs as Hc. apply isabs_cons in Hc as [rest ->].
  unfold posixpath.normpath. cbn [truthy negb].
  unfold posixpath.isabs in Habs. rewrite Habs.
  destruct (startswith [posixpath.sep; posixpath.sep] (posixpath.sep :: rest)
            && negb (startswith [posixpath.sep; posixpath.sep; posixpath.sep]
                       (posixpath.sep :: rest)));
    reflexivity.
Qed.

Lemma abspath_isabs (cwd path : str) :
  posixpath.isabs cwd = true ->
  posixpath.isabs (posixpath.abspath cwd path) = true.
Proof.
  intros Hcwd. unfold posixpath.abspath.
  destruct (posixpath.isabs path) eqn:Hp; [by apply normpath_isabs|].
  apply normpath_isabs. unfold posixpath.join.
  unfold posixpath.isabs in Hp. rewrite Hp.
  apply isabs_cons in Hcwd as [rest ->].
  destruct (negb (truthy (posixpath.sep :: rest))
            || endswith [posixpath.sep] (posixpath.sep :: rest)); reflexivity.
Qed.

(** X8.  When the current directory is an absolute path, the directory of
    the [WorkingDirectory=] line is an absolute path, and the command of
    the [ExecStart=] line is either the trimmed command unchanged or an
    absolute path; it is absolute whenever the trimmed command has no
    space and names something that exists. *)
Theorem X8_rendered_paths_are_absolute (w : World) (command_file service_name : str)
    (working_directory : option str) (text : str) :
  posixpath.isabs (cwd w) = true ->
  stat w command_file = Some (File text) ->
  strip text <> [] ->
  sanitize service_name <> [] ->
  staging_ready w (sanitize service_name) = true ->
  exists (r : bool) (w' : World) (command : str) (directory : option str),
    create_service command_file service_name working_directory w = (Ret r, w')
    /\ writes (new_events w w')
       = [ (py "/tmp/" ++ sanitize service_name ++ py ".service",
            unit_file (sanitize service_name) command directory) ]
    /\ (command = strip text \/ posixpath.isabs command = true)
    /\ (contains 0x20 (strip text) = false ->
        is_Some (stat w (strip text)) ->
        posixpath.isabs command = true)
    /\ (forall d, directory = Some d -> posixpath.isabs d = true).
Proof.
  intros Hcwd Hstat Hcmd Hname Hready.
  destruct (create_service_observed w command_file service_name
              working_directory text Hstat Hcmd Hname Hready)
    as (r & w' & rest & Hrun & Hev & Hrest & _).
  exists r, w', (ExecStart_value w (strip text)),
    (WorkingDirectory_value w working_directory).
  split; [exact Hrun|]. split; [|split; [|split]].
  - rewrite Hev, !writes_app, writes_warnings, Hrest. reflexivity.
  - unfold ExecStart_value. destruct (_ && _); [right | by left].
    by apply abspath_isabs.
  - intros Hsp Hex. unfold ExecStart_value.
    rewrite Hsp, bool_decide_true by done. by apply abspath_isabs.
  - intros d. unfold WorkingDirectory_value.
    destruct working_directory as [p|]; [|done]. simpl.
    destruct (stat w p) as [[|]|]; try done. intros [= <-].
    by apply abspath_isabs.
Qed.

(** X4.  An advisory run executes no tool, and the four commands it tells
    the user to run are, word for word and in the same order, [sudo]
    followed by the argument vectors the privileged path executes. *)
Theorem X4_advice_repeats_the_installation (w : World)
    (command_file service_name : str) (working_directory : option str)
    (text : str) :
  stat w command_file = Some (File text) ->
  strip text <> [] ->
  sanitize service_name <> [] ->
  staging_ready w (sanitize service_name) = true ->
  euid w <> 0%Z ->
  let name := sanitize service_name in
  let steps :=
    [ [py "mv"; py "/tmp/" ++ name ++ py ".service";
       py "/etc/systemd/system/" ++ name ++ py ".service"];
      [py "systemctl"; py "daemon-reload"];
      [py "systemctl"; py "enable"; name ++ py ".service"];
      [py "systemctl"; py "start"; name ++ py ".service"] ] in
  exists (w' : World),
    create_service command_file service_name working_directory w = (Ret true, w')
    /\ prints (new_events w w')
       = prints (warnings w working_directory)
         ++ [ py "This script needs root privileges to create a system service.";
              py "Service file created at: " ++ py "/tmp/" ++ name ++ py ".service";
              py "Run the following commands to install the service:" ]
         ++ ((fun argv => py "sudo " ++ join (py " ") argv) <$> steps)
    /\ execs (new_events w w') = [].
Proof.
  intros Hstat Hcmd Hname Hready Huid name steps.
  destruct (create_service_observed w command_file service_name
              working_directory text Hstat Hcmd Hname Hready)
    as (r & w' & rest & Hrun & Hev & Hrest & Hadv & _).
  destruct (Hadv Huid) as (-> & -> & _).
  exists w'. split; [exact Hrun|]. rewrite Hev. split.
  - rewrite !prints_app, prints_Print. reflexivity.
  - by rewrite !execs_app, execs_warnings, execs_Print.
Qed.

(** X5.  When the command file argument names a directory, the existence
    check passes and opening it fails: the process ends with status 1
    having printed nothing and changed nothing, neither the "not found"
    nor the "empty" message appears. *)
Theorem X5_command_file_is_a_directory (w : World)
    (prog command_file service_name : str) (working_directory : option str) :
  stat w command_file = Some Dir ->
  run (prog :: command_file :: service_name
       :: match working_directory with Some d => [d] | None => [] end) w
  = (1%Z, w).
Proof.
  intros Hdir. rewrite run_arguments_of.
  by rewrite create_service_not_a_file.
Qed.

(** X11.  When root installs and no step fails, the run returns [True]
    and what happens is exactly, in this order: the warning if any, the
    staging file written, [mv], [systemctl daemon-reload], [systemctl
    enable], [systemctl start], and the two lines that report success. *)
Theorem X11_installation_succeeds (w : World) (command_file service_name : str)
    (working_directory : option str) (text : str) :
  stat w command_file = Some (File text) ->
  strip text <> [] ->
  sanitize service_name <> [] ->
  staging_ready w (sanitize service_name) = true ->
  euid w = 0%Z ->
  let name := sanitize service_name in
  let content :=
    unit_file name (ExecStart_value w (strip text))
      (WorkingDirectory_value w working_directory) in
  install_failure w name content = None ->
  exists (w' : World),
    create_service command_file service_name working_directory w = (Ret true, w')
    /\ new_events w w'
       = warnings w working_directory
         ++ [ Write (py "/tmp/" ++ name ++ py ".service") content;
              Exec [py "mv"; py "/tmp/" ++ name ++ py ".service";
                    py "/etc/systemd/system/" ++ name ++ py ".service"];
              Exec [py "systemctl"; py "daemon-reload"];
              Exec [py "systemctl"; py "enable"; name ++ py ".service"];
              Exec [py "systemctl"; py "start"; name ++ py ".service"];
              Print (py "Service '" ++ name ++ py "' has been created and enabled.");
              Print (py "You can check its status with: sudo systemctl status "
                     ++ name ++ py ".service") ].
Proof.
  intros Hstat Hcmd Hname Hready Huid name content Hok.
  rewrite (create_service_ready _ _ _ _ text) by done. cbv zeta.
  rewrite Huid. cbn [Z.eqb negb]. fold name. fold content.
  unfold install_failure, staging_key in Hok.
  destruct (run_steps _ _ _) as [[[started failure] fs] h] eqn:Erun.
  destruct (run_steps_started _ _ _ _ _ _ _ Erun) as [_ Hfail].
  cbn [fst snd] in Hok. subst failure. subst started.
  eexists. split; [reflexivity|].
  rewrite new_events_log. reflexivity.
Qed.

(** Every run of [create_service] is of one of five kinds: a validation
    error; a command file that cannot be read; a staging file that cannot
    be written; an advisory run; an installation. *)
Lemma create_service_cases (w : World) (command_file service_name : str)
    (working_directory : option str) :
  let name := sanitize service_name in
  (exists line,
     create_service command_file service_name working_directory w
     = (Ret false, log [Print line] w))
  \/ create_service command_file service_name working_directory w
     = (Raise (OSError command_file), w)
  \/ create_service command_file service_name working_directory w
     = (Raise (OSError (staging_path name)), log (warnings w working_directory) w)
  \/ (exists content,
        euid w <> 0%Z
        /\ create_service command_file service_name working_directory w
           = (Ret true,
              log (warnings w working_directory
                   ++ [Write (staging_path name) content]
                   ++ (Print <$> advice name))
                (set_state (<[staging_key name := File content]> (files w))
                   (machine w) w)))
  \/ (exists content started failure fs h,
        euid w = 0%Z
        /\ run_steps (install_steps name)
             (<[staging_key name := File content]> (files w)) (machine w)
           = (started, failure, fs, h)
        /\ create_service command_file service_name working_directory w
           = (Ret (bool_decide (failure = None)),
              log (warnings w working_directory
                   ++ [Write (staging_path name) content]
                   ++ (Exec <$> started)
                   ++ (Print <$> install_report name failure))
                (set_state fs h w))).
Proof.
  intros name. unfold name.
  destruct (stat w command_file) as [[text|]|] eqn:Hstat.
  - destruct (decide (strip text = [])) as [Hcmd|Hcmd].
    { left. eexists. by apply (create_service_empty_command _ _ _ _ text). }
    destruct (decide (sanitize service_name = [])) as [Hname|Hname].
    { left. eexists. by apply (create_service_no_valid_characters _ _ _ _ text). }
    destruct (staging_ready w (sanitize service_name)) eqn:Hready.
    + rewrite (create_service_ready _ _ _ _ text) by done. cbv zeta.
      destruct (euid w =? 0)%Z eqn:Euid; cbn [negb].
      * apply Z.eqb_eq in Euid. right. right. right. right.
        destruct (run_steps _ _ _) as [[[started failure] fs] h] eqn:Erun.
        eexists _, started, failure, fs, h. split; [done|].
        split; [exact Erun | reflexivity].
      * apply Z.eqb_neq in Euid. right. right. right. left.
        eexists. split; [done | reflexivity].
    + right. right. left.
      rewrite (create_service_valid _ _ _ _ text) by done. cbv zeta.
      by rewrite Hready.
  - right. left. by apply create_service_not_a_file.
  - left. eexists. by apply create_service_not_found.
Qed.


(** X10.  A run never changes the current directory or the effective
    user, and only adds to the output.  An unprivileged run leaves the
    host as it was and every entry of the file tree other than the
    staging file untouched. *)
Theorem X10_run_frame (w : World) (command_file service_name : str)
    (working_directory : option str) :
  let w' := (create_service command_file service_name working_directory w).2 in
  cwd w' = cwd w
  /\ euid w' = euid w
  /\ events w' = events w ++ new_events w w'
  /\ (euid w <> 0%Z ->
      machine w' = machine w
      /\ forall key,
           key <> [py "tmp"; sanitize service_name ++ py ".service"] ->
           files w' !! key = files w !! key).
Proof.
  intros w'. unfold w'. clear w'.
  destruct (create_service_cases w command_file service_name working_directory)
    as [[line ->] | [-> | [-> | [(content & Huid & ->)
        | (content & started & failure & fs & h & Huid & Hsteps & ->)]]]];
    cbn [snd].
  - rewrite new_events_log'. by repeat split.
  - rewrite new_events_refl, app_nil_r. by repeat split.
  - rewrite new_events_log'. by repeat split.
  - rewrite new_events_log. split; [done|]. split; [done|]. split; [done|].
    intros _. split; [done|]. intros key Hkey. cbn [files log set_state].
    unfold staging_key. by rewrite lookup_insert_ne.
  - rewrite new_events_log. split; [done|]. split; [done|]. split; [done|].
    intros Hne. done.
Qed.

(** Putting a regular file where no directory was changes no directory. *)
Lemma is_dir_at_insert_file (fs : gmap (list str) node) (key cur : list str)
    (content : str) :
  fs !! key <> Some Dir ->
  is_dir_at (<[key := File content]> fs) cur = is_dir_at fs cur.
Proof.
  intros Hkey. destruct cur as [|c cur]; [done|]. cbn [is_dir_at].
  destruct (decide (key = c :: cur)) as [->|Hne].
  - rewrite lookup_insert_eq. by destruct (fs !! (c :: cur)) as [[|]|].
  - by rewrite lookup_insert_ne.
Qed.

Lemma walk_insert_file (fs : gmap (list str) node) (key : list str)
    (content : str) (comps cur : list str) :
  fs !! key <> Some Dir ->
  walk (<[key := File content]> fs) cur comps = walk fs cur comps.
Proof.
  intros Hkey. revert cur. induction comps as [|c comps IH]; intros cur; [done|].
  cbn [walk]. rewrite is_dir_at_insert_file by done.
  destruct (is_dir_at fs cur); [|done].
  destruct (_ || _); [apply IH|]. destruct (PyStr.eqb c (py "..")); apply IH.
Qed.

(** What the script sees of a path after the staging file was written. *)
Lemma stat_after_staging (w w1 : World) (key : list str) (content path : str) :
  key <> [] ->
  files w !! key <> Some Dir ->
  files w1 = <[key := File content]> (files w) ->
  cwd w1 = cwd w ->
  locate w1 path = locate w path
  /\ stat w1 path
     = if decide (locate w path = Some key) then Some (File content)
       else stat w path.
Proof.
  intros Hnonempty Hkey Hfiles Hcwd.
  assert (Hloc : locate w1 path = locate w path).
  { unfold locate. rewrite Hfiles, Hcwd. destruct (_ || _); [done|].
    by apply walk_insert_file. }
  split; [exact Hloc|]. unfold stat. rewrite Hloc.
  destruct (locate w path) as [k|]; cbn [mbind option_bind].
  - destruct (decide (Some k = Some key)) as [[= ->]|Hne].
    + rewrite Hfiles. destruct key; [done|]. cbn [node_at].
      by rewrite lookup_insert_eq.
    + rewrite Hfiles. destruct k as [|c k]; [done|]. cbn [node_at].
      rewrite lookup_insert_ne; [done|]. intros ->. by apply Hne.
  - by destruct (decide (None = Some key)).
Qed.

(** X12.  Running the advisory path a second time, in the world the
    first run left, stages the same bytes, prints the same lines and
    leaves the file tree as the first run left it, provided the staging
    file is not the command file itself and the first run did not bring
    the command's own path into existence (the command has a space, or is
    not the staging path, or the staging file existed before). *)
Theorem X12_advisory_run_twice (w : World) (command_file service_name : str)
    (working_directory : option str) (text : str) :
  stat w command_file = Some (File text) ->
  strip text <> [] ->
  sanitize service_name <> [] ->
  staging_ready w (sanitize service_name) = true ->
  euid w <> 0%Z ->
  let key := [py "tmp"; sanitize service_name ++ py ".service"] in
  locate w command_file <> Some key ->
  (contains 0x20 (strip text) = true
   \/ locate w (strip text) <> Some key
   \/ is_Some (files w !! key)) ->
  let first := create_service command_file service_name working_directory w in
  let second := create_service command_file service_name working_directory first.2 in
  first.1 = Ret true
  /\ second.1 = Ret true
  /\ new_events first.2 second.2 = new_events w first.2
  /\ files second.2 = files first.2
  /\ exists content,
       writes (new_events w first.2)
       = [(py "/tmp/" ++ sanitize service_name ++ py ".service", content)]
       /\ files second.2 !! key = Some (File content).
Proof.
  intros Hstat Hcmd Hname Hready Huid key Hfile Hcommand first second.
  assert (Hkey : files w !! key <> Some Dir).
  { unfold staging_ready in Hready. apply andb_true_iff in Hready as [_ Hk].
    fold key in Hk. intros E. by rewrite E in Hk. }
  assert (Hfirst : first
    = (Ret true,
       log (warnings w working_directory
            ++ [Write (staging_path (sanitize service_name))
                  (unit_file (sanitize service_name)
                     (ExecStart_value w (strip text))
                     (WorkingDirectory_value w working_directory))]
            ++ (Print <$> advice (sanitize service_name)))
         (set_state
            (<[key := File (unit_file (sanitize service_name)
                              (ExecStart_value w (strip text))
                              (WorkingDirectory_value w working_directory))]>
               (files w))
            (machine w) w))).
  { unfold first. rewrite (create_service_ready _ _ _ _ text) by done. cbv zeta.
    apply Z.eqb_neq in Huid. by rewrite Huid. }
  set (content := unit_file (sanitize service_name)
                    (ExecStart_value w (strip text))
                    (WorkingDirectory_value w working_directory)) in *.
  set (w1 := first.2).
  assert (Hfiles1 : files w1 = <[key := File content]> (files w))
    by (unfold w1; by rewrite Hfirst).
  assert (Hcwd1 : cwd w1 = cwd w) by (unfold w1; by rewrite Hfirst).
  assert (Heuid1 : euid w1 = euid w) by (unfold w1; by rewrite Hfirst).
  assert (Hsee : forall path,
            locate w1 path = locate w path
            /\ stat w1 path
               = if decide (locate w path = Some key) then Some (File content)
                 else stat w path).
  { intros path. by apply stat_after_staging. }
  assert (Hstat1 : stat w1 command_file = Some (File text)).
  { destruct (Hsee command_file) as [_ ->]. by rewrite decide_False. }
  assert (Hready1 : staging_ready w1 (sanitize service_name) = true).
  { unfold staging_ready. rewrite Hfiles1.
    rewrite is_dir_at_insert_file by done.
    unfold staging_ready in Hready. apply andb_true_iff in Hready as [-> _].
    fold key. by rewrite lookup_insert_eq. }
  assert (Hexec : ExecStart_value w1 (strip text) = ExecStart_value w (strip text)).
  { unfold ExecStart_value. rewrite Hcwd1.
    destruct (contains 32 (strip text)) eqn:Hsp; [done|]. cbn [negb andb].
    destruct (Hsee (strip text)) as [_ ->].
    destruct (decide (locate w (strip text) = Some key)) as [Hloc|Hloc]; [|done].
    destruct Hcommand as [? | [? | Hthere]]; [done | done |].
    assert (is_Some (stat w (strip text))) as Hsome.
    { unfold stat. rewrite Hloc. cbn [mbind option_bind node_at key]. exact Hthere. }
    rewrite !bool_decide_true; [done | done | by eexists]. }
  assert (Hdir : forall d,
            match stat w1 d with Some Dir => true | _ => false end
            = match stat w d with Some Dir => true | _ => false end).
  { intros d. destruct (Hsee d) as [_ ->].
    destruct (decide (locate w d = Some key)) as [Hloc|Hloc]; [|done].
    unfold stat. rewrite Hloc. cbn [mbind option_bind node_at key].
    fold key. by destruct (files w !! key) as [[|]|]. }
  assert (Hwd : WorkingDirectory_value w1 working_directory
                = WorkingDirectory_value w working_directory).
  { unfold WorkingDirectory_value. destruct working_directory as [d|]; [|done].
    cbn [mbind option_bind]. rewrite Hcwd1. specialize (Hdir d).
    destruct (stat w1 d) as [[|]|], (stat w d) as [[|]|]; done. }
  assert (Hwarn : warnings w1 working_directory = warnings w working_directory).
  { unfold warnings. destruct working_directory as [d|]; [|done].
    by rewrite Hdir. }
  assert (Hsecond : second
    = (Ret true,
       log (warnings w working_directory
            ++ [Write (staging_path (sanitize service_name)) content]
            ++ (Print <$> advice (sanitize service_name)))
         (set_state (<[key := File content]> (files w1)) (machine w1) w1))).
  { unfold second. fold w1.
    rewrite (create_service_ready _ _ _ _ text) by done. cbv zeta.
    rewrite Heuid1. apply Z.eqb_neq in Huid. rewrite Huid. cbn [negb].
    by rewrite Hexec, Hwd, Hwarn. }
  split; [by rewrite Hfirst|]. split; [by rewrite Hsecond|].
  split; [|split].
  - rewrite Hsecond. cbn [snd]. rewrite new_events_log.
    unfold w1. rewrite Hfirst. cbn [snd]. by rewrite new_events_log.
  - rewrite Hsecond. cbn [snd files log set_state]. fold w1.
    rewrite Hfiles1. by rewrite insert_insert_eq.
  - exists content. split.
    + unfold w1. rewrite Hfirst. cbn [snd]. rewrite new_events_log.
      by rewrite !writes_app, writes_warnings, writes_Print.
    + rewrite Hsecond. cbn [snd files log set_state]. by rewrite lookup_insert_eq.
Qed.

Lemma contains_In (c : codepoint) (s : str) :
  contains c s = true <-> In c s.
Proof.
  unfold contains. rewrite existsb_exists. split.
  - intros (x & Hin & Heq). apply N.eqb_eq in Heq. by subst.
  - intros Hin. exists c. split; [done | apply N.eqb_refl].
Qed.

Lemma contains_false (c : codepoint) (s : str) :
  contains c s = false <-> ~ In c s.
Proof.
  rewrite <- contains_In. destruct (contains c s); split; done.
Qed.

(** The pieces of a split are made of the characters of the string. *)
Lemma split_In (sep : codepoint) (s piece : str) (c : codepoint) :
  In piece (split sep s) -> In c piece -> In c s.
Proof.
  revert piece. induction s as [|x s IH]; intros piece; simpl.
  - intros [<-|[]] [].
  - destruct (x =? sep).
    + intros [<-|Hin]; [intros [] | intros Hc; right; by apply (IH piece)].
    + destruct (split sep s) as [|h t] eqn:E.
      * intros [<-|[]] [<-|[]]. by left.
      * intros [<-|Hin].
        -- intros [<-|Hc]; [by left | right]. apply (IH h); [by left | done].
        -- intros Hc. right. apply (IH piece); [by right | done].
Qed.

Lemma In_removelast (A : Type) (l : list A) (x : A) :
  In x (removelast l) -> In x l.
Proof.
  induction l as [|y l IH]; [done|]. simpl. destruct l as [|z l]; [done|].
  intros [<-|Hin]; [by left | right; by apply IH].
Qed.

Lemma normpath_step_In (n : nat) (acc : list str) (comp piece : str) :
  In piece (posixpath.normpath_step n acc comp) -> piece = comp \/ In piece acc.
Proof.
  unfold posixpath.normpath_step.
  destruct (_ || _); [by right|]. destruct (_ || _).
  - intros Hin. apply in_app_or in Hin as [?|[<-|[]]]; [by right | by left].
  - intros Hin. right. by apply In_removelast.
Qed.

Lemma normpath_fold_In (n : nat) (comps acc : list str) (piece : str) :
  In piece (fold_left (posixpath.normpath_step n) comps acc) ->
  In piece comps \/ In piece acc.
Proof.
  revert acc. induction comps as [|comp comps IH]; intros acc; simpl; [by right|].
  intros Hin. apply IH in Hin as [?|Hin]; [left; by right|].
  apply normpath_step_In in Hin as [->|?]; [left; by left | by right].
Qed.

Lemma join_In (sep : str) (parts : list str) (c : codepoint) :
  In c (join sep parts) -> In c sep \/ exists p, In p parts /\ In c p.
Proof.
  induction parts as [|p parts IH]; [done|]. simpl.
  destruct parts as [|q parts].
  - intros Hc. right. exists p. split; [by left | done].
  - intros Hc. apply in_app_or in Hc as [Hc|Hc].
    { right. exists p. split; [by left | done]. }
    apply in_app_or in Hc as [Hc|Hc]; [by left|].
    apply IH in Hc as [?|(p' & Hp' & Hc')]; [by left|].
    right. exists p'. split; [by right | done].
Qed.

(** [normpath] adds no character but the separator and the dot. *)
Lemma normpath_In (path : str) (c : codepoint) :
  In c (posixpath.normpath path) ->
  c = posixpath.sep \/ c = 0x2E \/ In c path.
Proof.
  unfold posixpath.normpath. destruct (negb (truthy path)).
  { intros [<-|[]]. right. by left. }
  cbv zeta. destruct (truthy _).
  2:{ intros [<-|[]]. right. by left. }
  intros Hc. apply in_app_or in Hc as [Hc|Hc].
  - left. by apply repeat_spec in Hc.
  - apply join_In in Hc as [[<-|[]]|(p & Hp & Hc)]; [by left|].
    apply normpath_fold_In in Hp as [Hp|[]].
    right. right. by apply (split_In posixpath.sep path p).
Qed.

Lemma abspath_In (cwd path : str) (c : codepoint) :
  In c (posixpath.abspath cwd path) ->
  c = posixpath.sep \/ c = 0x2E \/ In c cwd \/ In c path.
Proof.
  unfold posixpath.abspath. intros Hc.
  apply normpath_In in Hc as [?|[?|Hc]]; [by left | right; by left |].
  destruct (posixpath.isabs path); [by repeat right|].
  unfold posixpath.join in Hc. destruct (startswith _ path); [by repeat right|].
  destruct (_ || _).
  - apply in_app_or in Hc as [?|?]; [right; right; by left | by repeat right].
  - apply in_app_or in Hc as [?|Hc]; [right; right; by left|].
    destruct Hc as [<-|?]; [by left | by repeat right].
Qed.

Lemma split_line (sep : codepoint) (line rest : str) :
  contains sep line = false ->
  split sep (line ++ sep :: rest) = line :: split sep rest.
Proof.
  induction line as [|c line IH]; intros Hline.
  - simpl. by rewrite N.eqb_refl.
  - unfold contains in Hline. simpl in Hline.
    apply orb_false_elim in Hline as [Hc Hline].
    simpl. rewrite N.eqb_sym, Hc. by rewrite IH.
Qed.

(** Splitting a text made of lines gives the lines back, and the empty
    string after the last newline. *)
Lemma split_lines (l : list str) :
  Forall (fun line => contains 0x0A line = false) l ->
  split 0x0A (lines l) = l ++ [[]].
Proof.
  induction 1 as [|line l Hline Hl IH]; [done|].
  unfold lines. cbn [List.map concat]. rewrite <- app_assoc. cbn [app].
  rewrite split_line by done. fold (lines l). by rewrite IH.
Qed.

(** X13.  When neither the trimmed command, the current directory nor the
    working-directory argument holds a newline, splitting the staged file
    at newlines gives back exactly the fourteen lines of the template
    (fifteen with [WorkingDirectory=]) and the empty string after the last
    newline: every directive sits on a line of its own, and the service
    name cannot add a line. *)
Theorem X13_unit_file_line_by_line (w : World) (command_file service_name : str)
    (working_directory : option str) (text : str) :
  stat w command_file = Some (File text) ->
  strip text <> [] ->
  sanitize service_name <> [] ->
  staging_ready w (sanitize service_name) = true ->
  contains 0x0A (strip text) = false ->
  contains 0x0A (cwd w) = false ->
  (forall d, working_directory = Some d -> contains 0x0A d = false) ->
  exists (r : bool) (w' : World) (content : str),
    create_service command_file service_name working_directory w = (Ret r, w')
    /\ writes (new_events w w')
       = [(py "/tmp/" ++ sanitize service_name ++ py ".service", content)]
    /\ split 0x0A content
       = unit_lines (sanitize service_name) (ExecStart_value w (strip text))
           (WorkingDirectory_value w working_directory)
         ++ [py ""]
    /\ length (split 0x0A content)
       = match WorkingDirectory_value w working_directory with
         | Some _ => 16%nat
         | None => 15%nat
         end.
Proof.
  intros Hstat Hcmd Hname Hready Hcommand Hcwd Hwd.
  destruct (create_service_observed w command_file service_name
              working_directory text Hstat Hcmd Hname Hready)
    as (r & w' & rest & Hrun & Hev & Hrest & _).
  eexists r, w', _. split; [exact Hrun|]. split.
  { rewrite Hev, !writes_app, writes_warnings, Hrest. reflexivity. }
  assert (Hnl : forall cwd' p, contains 0x0A cwd' = false -> contains 0x0A p = false ->
                  contains 0x0A (posixpath.abspath cwd' p) = false).
  { intros cwd' p H1 H2. apply contains_false. intros Hin.
    apply abspath_In in Hin as [E|[E|[Hin|Hin]]]; try discriminate E.
    - by apply contains_false in H1.
    - by apply contains_false in H2. }
  assert (Hexec : contains 0x0A (ExecStart_value w (strip text)) = false).
  { unfold ExecStart_value. destruct (_ && _); [by apply Hnl | done]. }
  assert (Hname' : contains 0x0A (sanitize service_name) = false).
  { apply contains_allowed; [|apply sanitize_allowed].
    unfold allowed, isalnum. reflexivity. }
  assert (Hlines : Forall (fun line => contains 0x0A line = false)
            (unit_lines (sanitize service_name) (ExecStart_value w (strip text))
               (WorkingDirectory_value w working_directory))).
  { unfold unit_lines. apply Forall_app. split; [|apply Forall_app; split].
    - repeat constructor.
      + by rewrite !contains_app, Hname'.
      + by rewrite contains_app, Hexec.
    - unfold WorkingDirectory_value. destruct working_directory as [d|]; [|done].
      cbn [mbind option_bind]. destruct (stat w d) as [[|]|]; try done.
      constructor; [|done]. rewrite contains_app, Hnl; [done | done | by apply Hwd].
    - repeat constructor. }
  unfold unit_file. rewrite split_lines by done. split; [reflexivity|].
  rewrite length_app. unfold unit_lines. rewrite !length_app.
  by destruct (WorkingDirectory_value w working_directory).
Qed.

End Further.

(** ** Further properties on the concrete machine *)

(** X2 on the name [My Service!]: the letter [M] is kept, the space and the
    exclamation mark are not. *)
Lemma X2_sanitize_ascii_characters_witness :
  In 0x4D (@sanitize Demo.plain (py "My Service!"))
  /\ (In 0x21 (@sanitize Demo.plain (py "My Service!")) -> False)
  /\ (In 0x20 (@sanitize Demo.plain (py "My Service!")) -> False).
Proof.
  split; [|split].
  - apply (@X2_sanitize_ascii_characters Demo.plain (py "My Service!") 0x4D).
    + reflexivity.
    + split; [vm_compute; tauto | lia].
  - intros Hin.
    apply (@X2_sanitize_ascii_characters Demo.plain (py "My Service!") 0x21) in Hin.
    + destruct Hin as [_ Hrange]. lia.
    + reflexivity.
  - intros Hin.
    apply (@X2_sanitize_ascii_characters Demo.plain (py "My Service!") 0x20) in Hin.
    + destruct Hin as [_ Hrange]. lia.
    + reflexivity.
Defined.

(** X4 on the concrete machine. *)
Lemma X4_advice_repeats_the_installation_witness :
  exists (w' : @World Demo.plain),
    create_service (py "cmd.txt") (py "My Service!") None Demo.user = (Ret true, w')
    /\ prints (new_events Demo.user w')
       = [ py "This script needs root privileges to create a system service.";
           py "Service file created at: /tmp/MyService.service";
           py "Run the following commands to install the service:";
           py "sudo mv /tmp/MyService.service /etc/systemd/system/MyService.service";
           py "sudo systemctl daemon-reload";
           py "sudo systemctl enable MyService.service";
           py "sudo systemctl start MyService.service" ].
Proof.
  destruct (@X4_advice_repeats_the_installation Demo.plain Demo.user (py "cmd.txt")
              (py "My Service!") None (py "/usr/bin/myserver --port 8080
"))
    as (w' & Hrun & Hprints & _).
  - vm_compute. reflexivity.
  - vm_compute. discriminate.
  - vm_compute. discriminate.
  - vm_compute. reflexivity.
  - vm_compute. discriminate.
  - exists w'. split; [exact Hrun|]. rewrite Hprints. vm_compute. reflexivity.
Defined.

(** X5 on the concrete machine: [/tmp] as the command file. *)
Lemma X5_command_file_is_a_directory_witness :
  run [py "service_creator.py"; py "/tmp"; py "svc"] Demo.user = (1%Z, Demo.user).
Proof.
  apply (@X5_command_file_is_a_directory Demo.plain Demo.user
           (py "service_creator.py") (py "/tmp") (py "svc") None).
  vm_compute. reflexivity.
Defined.

(** X6 on the concrete machine: a file of a newline and two spaces. *)
Lemma X6_whitespace_only_command_file_witness :
  run [py "service_creator.py"; py "empty.txt"; py "svc"] Demo.user
  = (1%Z, log [Print (py "Error: Command file is empty.")] Demo.user).
Proof.
  apply (@X6_whitespace_only_command_file Demo.plain Demo.user
           (py "service_creator.py") (py "empty.txt") (py "svc") None
           [0x0A; 0x20; 0x20]).
  - vm_compute. reflexivity.
  - repeat constructor.
Defined.

(** X7 on the concrete machine: the newline that ends the file is dropped. *)
Lemma X7_command_is_trimmed_witness :
  exists (text before after : str),
    stat Demo.user (py "cmd.txt") = Some (File text)
    /\ text = before ++ py "/usr/bin/myserver --port 8080" ++ after
    /\ Forall (fun c => isspace c = true) before
    /\ Forall (fun c => isspace c = true) after.
Proof.
  destruct (@X7_command_is_trimmed Demo.plain Demo.user (py "cmd.txt")
              (py "/usr/bin/myserver --port 8080"))
    as (text & before & after & Hstat & Htext & Hbefore & Hafter & _).
  - vm_compute. reflexivity.
  - exists text, before, after. split; [exact Hstat|]. split; [exact Htext|].
    split; [exact Hbefore | exact Hafter].
Defined.

(** X8 on the concrete machine: a relative command that exists and the
    working directory [.], both made absolute. *)
Lemma X8_rendered_paths_are_absolute_witness :
  exists (r : bool) (w' : @World Demo.plain) (command : str)
         (directory : option str),
    create_service (py "tab.txt") (py "svc") (Some (py ".")) Demo.user = (Ret r, w')
    /\ writes (new_events Demo.user w')
       = [(py "/tmp/svc.service", unit_file (py "svc") command directory)]
    /\ posixpath.isabs command = true
    /\ (forall d, directory = Some d -> posixpath.isabs d = true).
Proof.
  destruct (@X8_rendered_paths_are_absolute Demo.plain Demo.user (py "tab.txt")
              (py "svc") (Some (py ".")) (py "a" ++ [0x09] ++ py "b" ++ [0x0A]))
    as (r & w' & command & directory & Hrun & Hwrites & _ & Hcommand & Hdirectory).
  - reflexivity.
  - vm_compute. reflexivity.
  - vm_compute. discriminate.
  - vm_compute. discriminate.
  - vm_compute. reflexivity.
  - exists r, w', command, directory. split; [exact Hrun|].
    split; [exact Hwrites|]. split; [|exact Hdirectory].
    apply Hcommand; [vm_compute; reflexivity | vm_compute; eexists; reflexivity].
Defined.

(** X11 on the concrete machine: root, every tool works. *)
Lemma X11_installation_succeeds_witness :
  exists (w' : @World Demo.plain),
    create_service (py "cmd.txt") (py "svc") None Demo.admin = (Ret true, w')
    /\ execs (new_events Demo.admin w')
       = [ [py "mv"; py "/tmp/svc.service"; py "/etc/systemd/system/svc.service"];
           [py "systemctl"; py "daemon-reload"];
           [py "systemctl"; py "enable"; py "svc.service"];
           [py "systemctl"; py "start"; py "svc.service"] ]
    /\ prints (new_events Demo.admin w')
       = [ py "Service 'svc' has been created and enabled.";
           py "You can check its status with: sudo systemctl status svc.service" ].
Proof.
  destruct (@X11_installation_succeeds Demo.plain Demo.admin (py "cmd.txt")
              (py "svc") None (py "/usr/bin/myserver --port 8080
"))
    as (w' & Hrun & Hevents).
  - vm_compute. reflexivity.
  - vm_compute. discriminate.
  - vm_compute. discriminate.
  - vm_compute. reflexivity.
  - reflexivity.
  - vm_compute. reflexivity.
  - exists w'. split; [exact Hrun|]. rewrite Hevents.
    split; vm_compute; reflexivity.
Defined.


(** X10 on the concrete machine: a user's run touches the staging file
    only. *)
Lemma X10_run_frame_witness :
  let w' := (create_service (py "cmd.txt") (py "svc") None Demo.user).2 in
  cwd w' = py "/work"
  /\ machine w' = machine Demo.user
  /\ files w' !! [py "work"; py "cmd.txt"] = files Demo.user !! [py "work"; py "cmd.txt"]
  /\ files w' !! [py "tmp"; py "svc.service"] <> files Demo.user !! [py "tmp"; py "svc.service"].
Proof.
  intros w'.
  destruct (@X10_run_frame Demo.plain Demo.user (py "cmd.txt") (py "svc") None)
    as (Hcwd & _ & _ & Huser).
  destruct Huser as [Hhost Hfiles]; [vm_compute; discriminate|].
  split; [exact Hcwd|]. split; [exact Hhost|]. split.
  - apply Hfiles. vm_compute. discriminate.
  - vm_compute. discriminate.
Defined.

(** X12 on the concrete machine. *)
Lemma X12_advisory_run_twice_witness :
  let first := create_service (py "cmd.txt") (py "svc") (Some (py "/tmp")) Demo.user in
  let second := create_service (py "cmd.txt") (py "svc") (Some (py "/tmp")) first.2 in
  second.1 = Ret true
  /\ new_events first.2 second.2 = new_events Demo.user first.2
  /\ files second.2 = files first.2.
Proof.
  intros first second.
  destruct (@X12_advisory_run_twice Demo.plain Demo.user (py "cmd.txt") (py "svc")
              (Some (py "/tmp")) (py "/usr/bin/myserver --port 8080
"))
    as (_ & Hsecond & Hevents & Hfiles & _).
  - vm_compute. reflexivity.
  - vm_compute. discriminate.
  - vm_compute. discriminate.
  - vm_compute. reflexivity.
  - vm_compute. discriminate.
  - vm_compute. discriminate.
  - left. vm_compute. reflexivity.
  - split; [exact Hsecond|]. split; [exact Hevents | exact Hfiles].
Defined.

(** Without its hypothesis on the command, X12 fails: in [/tmp], with the
    command [svc.service], the first run stages the command as it is and
    the second, finding the staging file, stages its absolute path. *)
Example advisory_run_twice_differs :
  let first := create_service (py "/work/self.txt") (py "svc") None Demo.in_tmp in
  let second := create_service (py "/work/self.txt") (py "svc") None first.2 in
  writes (new_events Demo.in_tmp first.2)
  = [(py "/tmp/svc.service", unit_file (py "svc") (py "svc.service") None)]
  /\ writes (new_events first.2 second.2)
     = [(py "/tmp/svc.service", unit_file (py "svc") (py "/tmp/svc.service") None)].
Proof. split; vm_compute; reflexivity. Qed.

(** X13 on the concrete machine. *)
Lemma X13_unit_file_line_by_line_witness :
  exists (r : bool) (w' : @World Demo.plain) (content : str),
    create_service (py "cmd.txt") (py "svc") (Some (py "/tmp")) Demo.user = (Ret r, w')
    /\ writes (new_events Demo.user w') = [(py "/tmp/svc.service", content)]
    /\ split 0x0A content
       = [ py "[Unit]"; py "Description=svc service"; py "After=network.target";
           py ""; py "[Service]"; py "Type=simple";
           py "ExecStart=/usr/bin/myserver --port 8080";
           py "WorkingDirectory=/tmp"; py "Restart=on-failure"; py "RestartSec=5";
           py "StandardOutput=journal"; py "StandardError=journal"; py "";
           py "[Install]"; py "WantedBy=multi-user.target"; py "" ].
Proof.
  destruct (@X13_unit_file_line_by_line Demo.plain Demo.user (py "cmd.txt") (py "svc")
              (Some (py "/tmp")) (py "/usr/bin/myserver --port 8080
"))
    as (r & w' & content & Hrun & Hwrites & Hsplit & _).
  - vm_compute. reflexivity.
  - vm_compute. discriminate.
  - vm_compute. discriminate.
  - vm_compute. reflexivity.
  - vm_compute. reflexivity.
  - vm_compute. reflexivity.
  - intros d [= <-]. vm_compute. reflexivity.
  - exists r, w', content. split; [exact Hrun|]. split; [exact Hwrites|].
    rewrite Hsplit. vm_compute. reflexivity.
Defined.
